(** * File Organizer: a shallow embedding of [file_organizer/__main__.py]

    The program plans file moves ([plan_moves]), executes them ([do_moves])
    and replays a persisted log ([undo]).  The three functions are embedded
    as computations over an explicit world: a file system (a finite map from
    absolute paths to nodes) and the lines printed on standard output.

    Modelling conventions.
    - A [pathlib.Path] is an absolute, normalised path: the list of its
      components, innermost first, so that [p </> n] reads like the Python
      [p / n].  The root is [[]].
    - The file system has regular files and directories only (no symbolic
      links, one device), so [Path.resolve] is the identity on these paths.
    - Python exceptions are grouped by the base class the program could
      observe: [OSError] (with [FileExistsError], [FileNotFoundError],
      [NotADirectoryError], [shutil.Error]), [ValueError] and a decoding
      failure of the log.
    - The log holds [str(path)] strings and [undo] rebuilds [Path(...)] from
      them; pathlib guarantees [Path(str(p)) == p], so the model keeps the
      paths themselves.  The JSON text of a log is kept as the list it
      encodes. *)

From Stdlib Require Import Ascii String DecimalString DecimalNat.
From stdpp Require Import gmap strings list fin_maps fin_sets.

Open Scope string_scope.

(** ** Strings: the pieces of [str] the program uses *)

Definition lower_ascii (c : ascii) : ascii :=
  let n := nat_of_ascii c in
  if (65 <=? n)%nat && (n <=? 90)%nat then ascii_of_nat (n + 32) else c.

(** [str.lower], on ASCII letters. *)
Fixpoint lower (s : string) : string :=
  match s with
  | EmptyString => EmptyString
  | String c s' => String (lower_ascii c) (lower s')
  end.

(** [str.lstrip(".")] *)
Fixpoint lstrip_dot (s : string) : string :=
  match s with
  | String "." s' => lstrip_dot s'
  | _ => s
  end.

(** [str.rfind(".")]: the index of the last dot, [None] for Python's -1. *)
Fixpoint rfind_dot (s : string) : option nat :=
  match s with
  | EmptyString => None
  | String c s' =>
      match rfind_dot s' with
      | Some i => Some (S i)
      | None => if Ascii.eqb c "." then Some 0 else None
      end
  end.

(** [str(i)] for a non-negative integer. *)
Definition str_nat (i : nat) : string :=
  NilEmpty.string_of_uint (Nat.to_uint i).

(** [f"{n:0{w}d}"]: decimal digits, padded with zeros on the left to width [w]. *)
Fixpoint zeros (k : nat) : string :=
  match k with
  | O => ""
  | S k' => String "0" (zeros k')
  end.

Definition zero_pad (w n : nat) : string :=
  let d := str_nat n in zeros (w - String.length d) +:+ d.

(** ** Paths *)

Abbreviation path := (list string).

Definition root : path := [].

Notation "p </> n" := (@cons string n p)
  (at level 40, left associativity, format "p  </>  n").

(** [Path.name]: the final component, empty for the root. *)
Definition name (p : path) : string :=
  match p with
  | [] => ""
  | n :: _ => n
  end.

(** [Path.parent]: the root is its own parent. *)
Definition parent (p : path) : path :=
  match p with
  | [] => []
  | _ :: d => d
  end.

(** [PurePath.suffix], as CPython 3.12 defines it: [name[i:]] when
    [0 < i < len(name) - 1] for [i = name.rfind('.')], else the empty
    string. *)
Definition suffix_of_name (nm : string) : string :=
  match rfind_dot nm with
  | Some i =>
      if (0 <? i)%nat && (i <? String.length nm - 1)%nat
      then String.substring i (String.length nm - i) nm
      else ""
  | None => ""
  end.

(** [PurePath.stem]: [name[:i]] under the same condition, else the name. *)
Definition stem_of_name (nm : string) : string :=
  match rfind_dot nm with
  | Some i =>
      if (0 <? i)%nat && (i <? String.length nm - 1)%nat
      then String.substring 0 i nm
      else nm
  | None => nm
  end.

Definition suffix (p : path) : string := suffix_of_name (name p).
Definition stem (p : path) : string := stem_of_name (name p).

(** [str(path)] *)
Fixpoint join_components (l : list string) : string :=
  match l with
  | [] => ""
  | c :: l' => "/" +:+ c +:+ join_components l'
  end.

Definition path_str (p : path) : string :=
  match p with
  | [] => "/"
  | _ => join_components (rev p)
  end.

(** ** The file system *)

(** What a regular file holds.  [MoveLog l] is the UTF-8 text
    [json.dumps(l, indent=2)] of a list of pairs; anything else is [Opaque]. *)
Inductive data :=
  | Opaque (id : N)
  | MoveLog (l : list (path * path)).

Inductive node :=
  | File (mtime : Z) (d : data)
  | Dir.

#[global] Instance data_eq_dec : EqDecision data.
Proof. solve_decision. Defined.

#[global] Instance node_eq_dec : EqDecision node.
Proof. solve_decision. Defined.

Abbreviation FS := (gmap path node).

(** The root directory always exists and is not stored in the map. *)
Definition node_at (m : FS) (p : path) : option node :=
  match p with
  | [] => Some Dir
  | _ => m !! p
  end.

(** [Path.exists] *)
Definition path_exists (m : FS) (p : path) : bool :=
  match node_at m p with
  | Some _ => true
  | None => false
  end.

(** [Path.is_dir] *)
Definition is_dir (m : FS) (p : path) : bool :=
  match node_at m p with
  | Some Dir => true
  | _ => false
  end.

(** [Path.stat().st_mtime].  Directories carry no time in the model; the
    planner never asks for one. *)
Definition st_mtime (m : FS) (p : path) : option Z :=
  match node_at m p with
  | Some (File t _) => Some t
  | Some Dir => Some 0%Z
  | None => None
  end.

(** The direct entries of directory [d], in the order of the map. *)
Definition children (m : FS) (d : path) : list path :=
  filter (λ q, q ≠ [] ∧ parent q = d) (map_to_list m).*1.

(** [Path.mkdir(parents=True, exist_ok=True)]; [None] is an [OSError]
    (the path, or one of its ancestors, is a regular file). *)
Fixpoint mkdir_p (p : path) (m : FS) : option FS :=
  match p with
  | [] => Some m
  | _ :: d =>
      match m !! p with
      | Some Dir => Some m
      | Some (File _ _) => None
      | None =>
          match mkdir_p d m with
          | Some m' => Some (<[p := Dir]> m')
          | None => None
          end
      end
  end.

(** [q] is [src] or lies below it. *)
Definition under (src q : path) : bool := bool_decide (src `suffix_of` q).

(** The path of [q] once the tree at [src] has been renamed to [dst]. *)
Definition rebase (src dst q : path) : path :=
  if under src q then take (length q - length src) q ++ dst else q.

(** The entries outside [src] stay; those under it are rebased. *)
Definition move_tree (src dst : path) (m : FS) : FS :=
  filter (λ kv, under src kv.1 = false) m ∪
  list_to_map
    (prod_map (rebase src dst) id <$>
       map_to_list (filter (λ kv, under src kv.1 = true) m)).

(** [shutil.move(src, dst)] on one device; [None] is an [OSError]
    ([FileNotFoundError], [shutil.Error], ...).
    - an existing directory [dst] receives the source under its own name,
      unless that name is taken there;
    - a regular file is renamed, replacing a regular file at the
      destination; the destination's directory must exist;
    - a directory is renamed with everything below it; it cannot replace a
      regular file nor move below itself. *)
Definition shutil_move (src dst : path) (m : FS) : option FS :=
  if is_dir m dst && bool_decide (src = dst) then Some m
  else
    let real_dst := if is_dir m dst then dst </> name src else dst in
    if is_dir m dst && path_exists m real_dst then None
    else
      match node_at m src with
      | None => None
      | Some (File t d) =>
          if is_dir m (parent real_dst)
          then Some (<[real_dst := File t d]> (delete src m))
          else None
      | Some Dir =>
          if under src real_dst || path_exists m real_dst then None
          else
            match mkdir_p (parent real_dst) m with
            | Some m' => Some (move_tree src real_dst m')
            | None => None
            end
      end.

(** [Path.write_text]: creates or replaces a regular file, stamped [now]. *)
Definition write_text (now : Z) (p : path) (d : data) (m : FS) : option FS :=
  match node_at m p with
  | Some Dir => None
  | _ => if is_dir m (parent p) then Some (<[p := File now d]> m) else None
  end.

(** Every entry lies in a directory: the map is a directory tree. *)
Definition tree (m : FS) : Prop :=
  map_Forall (λ p _, is_dir m (parent p) = true) m.

(** From [m] to [m'] nothing changed but directories that were created. *)
Definition only_dirs_added (m m' : FS) : Prop :=
  ∀ q, m' !! q = m !! q ∨ (m !! q = None ∧ m' !! q = Some Dir).

(** The paths of the regular files. *)
Definition file_paths (m : FS) : gset path :=
  dom (filter (λ kv, kv.2 ≠ Dir) m).

(** ** Computations: world, exceptions, fuel *)

Record world := World {
  fs : gmap path node;
  stdout : list string;
  stderr : list string
}.

Inductive exn := OSError | ValueError | LogDecodeError.

Inductive outcome (A : Type) :=
  | Ok (a : A) (w : world)
  | Raise (e : exn) (w : world)
  | OutOfFuel.
Arguments Ok {A} a w.
Arguments Raise {A} e w.
Arguments OutOfFuel {A}.

Definition M (A : Type) := world → outcome A.

(** The computation stopped in world [w'], by returning or by raising. *)
Definition stops_in {A} (o : outcome A) (w' : world) : Prop :=
  match o with
  | Ok _ v | Raise _ v => v = w'
  | OutOfFuel => False
  end.

#[global] Instance M_ret : MRet M := λ A a w, Ok a w.

#[global] Instance M_bind : MBind M :=
  λ A B k c w, match c w with
               | Ok a w' => k a w'
               | Raise e w' => Raise e w'
               | OutOfFuel => OutOfFuel
               end.

Definition raise {A} (e : exn) : M A := λ w, Raise e w.

(** [print(s)] *)
Definition print (s : string) : M unit :=
  λ w, Ok tt (World (fs w) (stdout w ++ [s]) (stderr w)).

(** [print(s, file=sys.stderr)] *)
Definition eprint (s : string) : M unit :=
  λ w, Ok tt (World (fs w) (stdout w) (stderr w ++ [s])).

(** A query of the file system. *)
Definition ask {A} (f : FS → A) : M A := λ w, Ok (f (fs w)) w.

(** A file-system call that changes the file system or raises [OSError]. *)
Definition syscall (f : FS → option FS) : M unit :=
  λ w, match f (fs w) with
       | Some m' => Ok tt (World m' (stdout w) (stderr w))
       | None => Raise OSError w
       end.

(** [Path.with_name]: a path with an empty name has none to replace. *)
Definition with_name (p : path) (n : string) : M path :=
  match p with
  | [] => raise ValueError
  | _ :: d => mret (d </> n)
  end.

(** [json.loads(undo_log.read_text())] as a list of pairs. *)
Definition read_log (p : path) : M (list (path * path)) :=
  λ w, match node_at (fs w) p with
       | Some (File _ (MoveLog l)) => Ok l w
       | Some (File _ (Opaque _)) => Raise LogDecodeError w
       | _ => Raise OSError w
       end.

(** ** The program *)

Section Program.

(** The environment of a run.
    - [scandir m d] is the sequence [Path(d).iterdir()] yields on file
      system [m]; the operating system fixes its order.
    - [fromtimestamp t] is the [(year, month)] of
      [datetime.fromtimestamp(t)] in the local time zone.
    - [now] is the clock at the time the log is written. *)
Variable scandir : FS → path → list path.
Variable fromtimestamp : Z → nat * nat.
Variable now : Z.

(** [source.iterdir()] *)
Definition iterdir (source : path) : M (list path) :=
  λ w, if is_dir (fs w) source then Ok (scandir (fs w) source) w
       else Raise OSError w.

(** [p.suffix.lower().lstrip(".") or "no_ext"] *)
Definition ext_of (p : path) : string :=
  let e := lstrip_dot (lower (suffix p)) in
  if String.eqb e "" then "no_ext" else e.

(** [datetime.fromtimestamp(p.stat().st_mtime)] *)
Definition stat_date (p : path) : M (nat * nat) :=
  λ w, match st_mtime (fs w) p with
       | Some t => Ok (fromtimestamp t) w
       | None => Raise OSError w
       end.

(** The destination computed for entry [p] (lines 18-25). *)
Definition dest_of (target : path) (mode : string) (p : path) : M path :=
  if String.eqb mode "ext" then
    mret (target </> ext_of p </> name p)
  else if String.eqb mode "date" then
    ts ← stat_date p;
    mret (target </> zero_pad 4 ts.1 </> zero_pad 2 ts.2 </> name p)
  else raise ValueError.

(** The body of [for p in source.iterdir()], with [ops] threaded. *)
Fixpoint plan_loop (target : path) (mode : string) (entries : list path)
    (ops : list (path * path)) : M (list (path * path)) :=
  match entries with
  | [] => mret ops
  | p :: entries' =>
      d ← ask (λ m, is_dir m p);
      if d : bool then plan_loop target mode entries' ops
      else
        dest ← dest_of target mode p;
        if bool_decide (p = dest) then plan_loop target mode entries' ops
        else plan_loop target mode entries' (ops ++ [(p, dest)])
  end.

Definition plan_moves (source target : path) (mode : string)
    : M (list (path * path)) :=
  entries ← iterdir source;
  plan_loop target mode entries [].

(** [f"{stem} ({i}){suf}"] *)
Definition cand_name (stem suf : string) (i : nat) : string :=
  stem +:+ " (" +:+ str_nat i +:+ ")" +:+ suf.

(** The [while True] loop of lines 41-46, on fuel. *)
Fixpoint dedupe_loop (fuel : nat) (dst : path) (stem suf : string) (i : nat)
    : M path :=
  match fuel with
  | O => λ _, OutOfFuel
  | S fuel' =>
      cand ← with_name dst (cand_name stem suf i);
      e ← ask (λ m, path_exists m cand);
      if negb e then mret cand
      else dedupe_loop fuel' dst stem suf (S i)
  end.

(** Lines 39-46.  The loop gets one more round than the file system has
    entries, which is always enough ([dedupe_loop_first_free]). *)
Definition dedupe (dst : path) : M path :=
  e ← ask (λ m, path_exists m dst);
  if e : bool then
    fuel ← ask (λ m, S (size m));
    dedupe_loop fuel dst (stem dst) (suffix dst) 1
  else mret dst.

(** The body of [for src, dst in ops], with [performed] threaded. *)
Fixpoint do_moves_loop (dry_run : bool) (ops performed : list (path * path))
    : M (list (path * path)) :=
  match ops with
  | [] => mret performed
  | (src, dst) :: ops' =>
      syscall (mkdir_p (parent dst));;
      if dry_run then
        print ("[DRY] " +:+ path_str src +:+ " -> " +:+ path_str dst);;
        do_moves_loop dry_run ops' performed
      else
        dst ← dedupe dst;
        syscall (shutil_move src dst);;
        print ("[MOVE] " +:+ path_str src +:+ " -> " +:+ path_str dst);;
        do_moves_loop dry_run ops' (performed ++ [(src, dst)])
  end.

Definition do_moves (ops : list (path * path)) (dry_run : bool)
    (undo_log : option path) : M unit :=
  performed ← do_moves_loop dry_run ops [];
  match undo_log with
  | Some log =>
      if negb dry_run && negb (bool_decide (performed = [])) then
        syscall (write_text now log (MoveLog performed));;
        print ("[LOG] Undo log written to " +:+ path_str log)
      else mret tt
  | None => mret tt
  end.

(** The body of [for dst, src in reversed(moves)]: the first component of
    each stored pair is bound to [dst], the second to [src]. *)
Fixpoint undo_loop (dry_run : bool) (moves : list (path * path)) : M unit :=
  match moves with
  | [] => mret tt
  | (dst, src) :: moves' =>
      (if dry_run then
         print ("[DRY-UNDO] " +:+ path_str dst +:+ " -> " +:+ path_str src)
       else
         syscall (mkdir_p (parent src));;
         e ← ask (λ m, path_exists m dst);
         if e : bool then
           syscall (shutil_move dst src);;
           print ("[UNDO] " +:+ path_str dst +:+ " -> " +:+ path_str src)
         else
           print ("[SKIP] Missing " +:+ path_str dst +:+ ", cannot undo."));;
      undo_loop dry_run moves'
  end.

Definition undo (undo_log : path) (dry_run : bool) : M unit :=
  e ← ask (λ m, path_exists m undo_log);
  if negb e then print "No undo log found."
  else
    moves ← read_log undo_log;
    undo_loop dry_run (rev moves).

(** Lines 88-97 of [main]: the organize run, returning the exit code. *)
Definition main_organize (source target : path) (mode : string)
    (dry_run : bool) (undo_log : path) : M Z :=
  ok ← ask (λ m, path_exists m source && is_dir m source);
  if negb ok then
    eprint "Source must be an existing directory";; mret 1%Z
  else
    ops ← plan_moves source target mode;
    match ops with
    | [] => print "Nothing to do.";; mret 0%Z
    | _ => do_moves ops dry_run (Some undo_log);; mret 0%Z
    end.

(** The parsed command line of [main] (lines 72-79), with the paths that
    lines 81-85 and 96 resolve already absolute. *)
Record args := Args {
  arg_source : path;
  arg_target : option path;
  arg_mode : string;
  arg_dry_run : bool;
  arg_undo_log : path;
  arg_undo : bool
}.

(** Lines 81-97 of [main]. *)
Definition main (a : args) : M Z :=
  let source := arg_source a in
  let target := match arg_target a with Some t => t | None => source end in
  if arg_undo a then
    undo (arg_undo_log a) (arg_dry_run a);; mret 0%Z
  else
    main_organize source target (arg_mode a) (arg_dry_run a) (arg_undo_log a).

End Program.

(** [final] is what lines 39-46 can make of destination [dst]: [dst]
    itself or one of its candidates. *)
Definition settled (dst final : path) : Prop :=
  final = dst ∨
  ∃ k, (1 ≤ k)%nat ∧
    final = parent dst </> cand_name (stem dst) (suffix dst) k.

(** The line a dry run of [do_moves] prints for an operation. *)
Definition dry_line (op : path * path) : string :=
  "[DRY] " +:+ path_str op.1 +:+ " -> " +:+ path_str op.2.

(** The line a dry run of [undo] prints for a record. *)
Definition dry_undo_line (r : path * path) : string :=
  "[DRY-UNDO] " +:+ path_str r.1 +:+ " -> " +:+ path_str r.2.

(** The line [undo] prints for a record it skips. *)
Definition skip_line (r : path * path) : string :=
  "[SKIP] Missing " +:+ path_str r.1 +:+ ", cannot undo.".

(** ** Sample runs *)

Module Sample.

(** An environment: entries are listed in the order of the map, every
    timestamp falls in May 2024, and the clock reads 1700000000. *)
Definition date (_ : Z) : nat * nat := (2024, 5).
Definition clock : Z := 1700000000.

Definition src : path := root </> "s".
Definition log : path := root </> "undo_moves.json".

Definition world_of (m : FS) : world := World m [] [].

(** /s holds the single regular file a.txt. *)
Definition one_file : FS :=
  list_to_map [(src, Dir); (src </> "a.txt", File 10 (Opaque 1))].

(** The same after [a.txt] went to /s/txt/a.txt, with the log of it. *)
Definition organized : FS :=
  list_to_map
    [(src, Dir); (src </> "txt", Dir);
     (src </> "txt" </> "a.txt", File 10 (Opaque 1));
     (log, File clock
             (MoveLog [(src </> "a.txt", src </> "txt" </> "a.txt")]))].

(** After a.txt and b.txt were organized, /s/txt/b.txt was deleted. *)
Definition one_deleted : FS :=
  list_to_map
    [(src, Dir); (src </> "txt", Dir);
     (src </> "txt" </> "a.txt", File 10 (Opaque 1));
     (log, File clock
             (MoveLog [(src </> "a.txt", src </> "txt" </> "a.txt");
                       (src </> "b.txt", src </> "txt" </> "b.txt")]))].

(** /t/txt holds a.txt, b.TXT and c; it is organized into /t. *)
Definition tgt : path := root </> "t".
Definition in_bucket : FS :=
  list_to_map
    [(tgt, Dir); (tgt </> "txt", Dir);
     (tgt </> "txt" </> "a.txt", File 10 (Opaque 1));
     (tgt </> "txt" </> "b.TXT", File 20 (Opaque 2));
     (tgt </> "txt" </> "c", File 30 (Opaque 3))].

(** /s holds a.txt again, and the log of its earlier move is still there. *)
Definition refilled : FS :=
  list_to_map
    [(src, Dir); (src </> "a.txt", File 40 (Opaque 4));
     (log, File clock
             (MoveLog [(src </> "a.txt", src </> "txt" </> "a.txt")]))].

(** /s holds a.txt, b.TXT, c and a directory. *)
Definition three_files : FS :=
  list_to_map
    [(src, Dir); (src </> "a.txt", File 10 (Opaque 1));
     (src </> "b.TXT", File 20 (Opaque 2));
     (src </> "c", File 30 (Opaque 3)); (src </> "sub", Dir)].

(** /s/report.txt is to go to /t/txt, where report.txt and
    report (1).txt already are. *)
Definition taken : FS :=
  list_to_map
    [(src, Dir); (src </> "report.txt", File 10 (Opaque 1));
     (tgt, Dir); (tgt </> "txt", Dir);
     (tgt </> "txt" </> "report.txt", File 20 (Opaque 2));
     (tgt </> "txt" </> "report (1).txt", File 30 (Opaque 3))].

(** report.txt lies in /s and in /s/old; /t is empty. *)
Definition two_reports : FS :=
  list_to_map
    [(src, Dir); (src </> "report.txt", File 10 (Opaque 1));
     (src </> "old", Dir); (src </> "old" </> "report.txt", File 20 (Opaque 2));
     (tgt, Dir)].

(** The by-extension plan of [three_files], organized into itself. *)
Definition three_plan : list (path * path) :=
  [(src </> "a.txt", src </> "txt" </> "a.txt");
   (src </> "c", src </> "no_ext" </> "c");
   (src </> "b.TXT", src </> "txt" </> "b.TXT")].

(** The plan that sends both reports of [two_reports] to one path, and the
    records of its execution. *)
Definition two_plan : list (path * path) :=
  [(src </> "report.txt", tgt </> "txt" </> "report.txt");
   (src </> "old" </> "report.txt", tgt </> "txt" </> "report.txt")].

Definition two_records : list (path * path) :=
  [(src </> "report.txt", tgt </> "txt" </> "report.txt");
   (src </> "old" </> "report.txt", tgt </> "txt" </> "report (1).txt")].

Definition two_done : FS :=
  list_to_map
    [(src, Dir); (src </> "old", Dir); (tgt, Dir); (tgt </> "txt", Dir);
     (tgt </> "txt" </> "report.txt", File 10 (Opaque 1));
     (tgt </> "txt" </> "report (1).txt", File 20 (Opaque 2));
     (log, File clock (MoveLog two_records))].

(** a.txt was organized, and a new a.txt was put in /s since. *)
Definition both_present : FS :=
  list_to_map
    [(src, Dir); (src </> "a.txt", File 40 (Opaque 4));
     (src </> "txt", Dir); (src </> "txt" </> "a.txt", File 10 (Opaque 1));
     (log, File clock
             (MoveLog [(src </> "a.txt", src </> "txt" </> "a.txt")]))].

(** /t/txt holds a.txt and a directory: organized into /t, all is in place. *)
Definition in_place : FS :=
  list_to_map
    [(tgt, Dir); (tgt </> "txt", Dir);
     (tgt </> "txt" </> "a.txt", File 10 (Opaque 1));
     (tgt </> "txt" </> "sub", Dir)].

(** A command line whose source does not exist. *)
Definition no_source : args :=
  Args (root </> "nowhere") None "ext" false log false.

End Sample.

(** * Properties *)

(** ** Reading computations *)

Lemma bind_Ok {A B : Type} (c : M A) (k : A → M B) w a w' :
  c w = Ok a w' → (c ≫= k) w = k a w'.
Proof. unfold mbind, M_bind. by intros ->. Qed.

Lemma bind_Raise {A B : Type} (c : M A) (k : A → M B) w e w' :
  c w = Raise e w' → (c ≫= k) w = Raise e w'.
Proof. unfold mbind, M_bind. by intros ->. Qed.

Lemma bind_ask {A B : Type} (f : FS → A) (k : A → M B) w :
  (ask f ≫= k) w = k (f (fs w)) w.
Proof. done. Qed.

Lemma bind_ret {A B : Type} (a : A) (k : A → M B) w : (mret a ≫= k) w = k a w.
Proof. done. Qed.

Lemma bind_syscall_Some {B : Type} f (k : unit → M B) w m' :
  f (fs w) = Some m' →
  (syscall f ≫= k) w = k tt (World m' (stdout w) (stderr w)).
Proof. unfold mbind, M_bind, syscall. by intros ->. Qed.

Lemma bind_syscall_None {B : Type} f (k : unit → M B) w :
  f (fs w) = None → (syscall f ≫= k) w = Raise OSError w.
Proof. unfold mbind, M_bind, syscall. by intros ->. Qed.

Lemma bind_print {B : Type} s (k : unit → M B) w :
  (print s ≫= k) w = k tt (World (fs w) (stdout w ++ [s]) (stderr w)).
Proof. done. Qed.

(** ** Candidate names are pairwise distinct *)

Lemma string_app_cons a s t : String a s +:+ t = String a (s +:+ t).
Proof. done. Qed.

Lemma digits_then_paren d1 d2 r1 r2 :
  NilEmpty.string_of_uint d1 +:+ String ")" r1
  = NilEmpty.string_of_uint d2 +:+ String ")" r2 →
  d1 = d2.
Proof.
  revert d2.
  induction d1; intros [] H; cbn [NilEmpty.string_of_uint] in H;
    rewrite ?string_app_cons in H; try discriminate H;
    try (injection H as H; f_equal; by apply IHd1); done.
Qed.

Lemma str_nat_then_paren i j r1 r2 :
  str_nat i +:+ String ")" r1 = str_nat j +:+ String ")" r2 → i = j.
Proof.
  intros H. apply DecimalNat.Unsigned.to_uint_inj.
  by apply digits_then_paren in H.
Qed.

Lemma cand_name_inj stem suf : Inj (=) (=) (cand_name stem suf).
Proof.
  intros i j H. unfold cand_name in H.
  apply (inj (String.app stem)) in H.
  apply (inj (String.app " (")) in H.
  by apply str_nat_then_paren in H.
Qed.

(** ** The collision loop *)

Lemma path_exists_cons m (d : path) n :
  path_exists m (d </> n) = true ↔ (d </> n) ∈ dom m.
Proof.
  unfold path_exists, node_at. rewrite elem_of_dom.
  destruct (m !! (d </> n)) eqn:E; rewrite ?E; split; by intros H.
Qed.

(** The first index from [i] on, among [n], at which [P] fails. *)
Lemma first_false (P : nat → bool) n i :
  (∃ k, i ≤ k < i + n ∧ P k = false ∧ ∀ j, i ≤ j < k → P j = true)
  ∨ (∀ j, i ≤ j < i + n → P j = true).
Proof.
  revert i. induction n as [|n IH]; intros i.
  - right. intros j ?. lia.
  - destruct (P i) eqn:Hi.
    + destruct (IH (S i)) as [(k & Hk & Hf & Hb)|Hall].
      * left. exists k. split; [lia|]. split; [done|].
        intros j Hj. destruct (decide (j = i)) as [->|]; [done|].
        apply Hb. lia.
      * right. intros j Hj. destruct (decide (j = i)) as [->|]; [done|].
        apply Hall. lia.
    + left. exists i. split; [lia|]. split; [done|]. intros j ?. lia.
Qed.

(** As many candidates as exist are entries of the file system. *)
Lemma candidates_bounded (m : FS) (d : path) stem suf n :
  (∀ j, 1 ≤ j < 1 + n → path_exists m (d </> cand_name stem suf j) = true) →
  (n ≤ size m)%nat.
Proof.
  intros Hall.
  set (l := (λ j, d </> cand_name stem suf j) <$> seq 1 n).
  assert (NoDup l) as Hnd.
  { apply NoDup_fmap_2; [|apply NoDup_seq].
    intros i j [= H]. by apply cand_name_inj in H. }
  assert (list_to_set (C := gset path) l ⊆ dom m) as Hsub.
  { intros p Hp. apply elem_of_list_to_set, list_elem_of_fmap in Hp
      as (j & -> & Hj%elem_of_seq).
    apply path_exists_cons, Hall. lia. }
  apply subseteq_size in Hsub.
  rewrite size_list_to_set in Hsub; [|done].
  rewrite size_dom in Hsub. unfold l in Hsub.
  by rewrite length_fmap, length_seq in Hsub.
Qed.

Lemma dedupe_loop_run n : ∀ i fuel (d : path) nm stem suf w,
  (∀ j, i ≤ j < i + n → path_exists (fs w) (d </> cand_name stem suf j) = true) →
  path_exists (fs w) (d </> cand_name stem suf (i + n)) = false →
  n < fuel →
  dedupe_loop fuel (d </> nm) stem suf i w
  = Ok (d </> cand_name stem suf (i + n)) w.
Proof.
  induction n as [|n IH]; intros i fuel d nm stem suf w Hall Hfree Hfuel;
    (destruct fuel as [|fuel]; [lia|]); cbn [dedupe_loop with_name];
    rewrite bind_ret, bind_ask.
  - rewrite Nat.add_0_r in *. by rewrite Hfree.
  - rewrite (Hall i) by lia. cbn [negb].
    replace (i + S n) with (S i + n) in * by lia.
    apply IH; [|done|lia]. intros j ?. apply Hall. lia.
Qed.

Lemma dedupe_loop_root fuel stem suf i w :
  dedupe_loop (S fuel) root stem suf i w = Raise ValueError w.
Proof. done. Qed.

(** The loop stops at the least free counter, within [S (size (fs w))]
    rounds, and yields what [with_name] makes of that candidate name. *)
Lemma dedupe_loop_first_free (dst : path) stem suf w :
  ∃ k, (1 ≤ k ≤ S (size (fs w)))%nat ∧
    (∀ j, 1 ≤ j < k →
       path_exists (fs w) (parent dst </> cand_name stem suf j) = true) ∧
    path_exists (fs w) (parent dst </> cand_name stem suf k) = false ∧
    ∀ fuel, (k ≤ fuel)%nat →
      dedupe_loop fuel dst stem suf 1 w = with_name dst (cand_name stem suf k) w.
Proof.
  destruct (first_false
    (λ j, path_exists (fs w) (parent dst </> cand_name stem suf j))
    (S (size (fs w))) 1) as [(k & Hk & Hfree & Hbelow)|Hall].
  - exists k. split; [lia|]. split; [done|]. split; [done|].
    intros fuel Hfuel. destruct dst as [|nm d].
    + destruct fuel; [lia|]. done.
    + cbn [parent] in *. replace k with (1 + (k - 1)) by lia.
      cbn [with_name]. apply dedupe_loop_run.
      * intros j ?. apply Hbelow. lia.
      * by replace (1 + (k - 1)) with k by lia.
      * lia.
  - apply candidates_bounded in Hall. lia.
Qed.

(** ** File-system facts *)

Lemma mkdir_p_is_dir m p : is_dir m p = true → mkdir_p p m = Some m.
Proof.
  destruct p as [|n d]; [done|]. unfold is_dir, node_at. cbn [mkdir_p].
  by destruct (m !! (d </> n)) as [[]|].
Qed.

Lemma tree_parent_is_dir m (d : path) n :
  tree m → path_exists m (d </> n) = true → is_dir m d = true.
Proof.
  intros Ht He. unfold path_exists, node_at in He.
  destruct (m !! (d </> n)) as [x|] eqn:E; [|done].
  by apply (Ht _ _ E).
Qed.

(** Renaming a regular file onto a free path in an existing directory. *)
Lemma shutil_move_file_free m (src d : path) n t x :
  node_at m src = Some (File t x) →
  path_exists m (d </> n) = false →
  is_dir m d = true →
  shutil_move src (d </> n) m = Some (<[d </> n := File t x]> (delete src m)).
Proof.
  intros Hsrc Hfree Hd. unfold shutil_move.
  assert (is_dir m (d </> n) = false) as ->.
  { unfold is_dir. unfold path_exists in Hfree.
    by destruct (node_at m (d </> n)). }
  cbn [andb parent]. by rewrite Hsrc, Hd.
Qed.

Lemma is_dir_after_move m (src dst p : path) t x :
  node_at m src = Some (File t x) →
  path_exists m dst = false →
  is_dir m p = true →
  is_dir (<[dst := File t x]> (delete src m)) p = true.
Proof.
  intros Hsrc Hfree Hp. destruct p as [|a p]; [done|].
  unfold is_dir, path_exists, node_at in *.
  destruct (m !! (p </> a)) as [[]|] eqn:E; try done.
  rewrite lookup_insert_ne, lookup_delete_ne; [by rewrite E| |].
  - intros ->. by rewrite E in Hsrc.
  - intros ->. by rewrite E in Hfree.
Qed.

(** Moving a regular file to a free path of an existing directory leaves a
    directory tree. *)
Lemma tree_after_move m (src d : path) n t x :
  tree m →
  node_at m src = Some (File t x) →
  path_exists m (d </> n) = false →
  is_dir m d = true →
  tree (<[d </> n := File t x]> (delete src m)).
Proof.
  intros Ht Hsrc Hfree Hd q y Hq.
  destruct (decide (q = d </> n)) as [->|Hne].
  - by apply is_dir_after_move.
  - rewrite lookup_insert_ne in Hq by done.
    apply lookup_delete_Some in Hq as [_ Hq].
    apply is_dir_after_move; [done..|]. by apply (Ht _ _ Hq).
Qed.

Lemma move_tree_keeps (src dst q : path) m n :
  under src q = false → m !! q = Some n → move_tree src dst m !! q = Some n.
Proof.
  intros Hq Hn. unfold move_tree.
  apply lookup_union_Some_l, map_lookup_filter_Some. by split.
Qed.

Lemma mkdir_p_keeps p m m' (q : path) n :
  mkdir_p p m = Some m' → m !! q = Some n → m' !! q = Some n.
Proof.
  revert m'. induction p as [|a d IH]; intros m' H Hn; cbn [mkdir_p] in H.
  - by injection H as <-.
  - destruct (m !! (d </> a)) as [[]|] eqn:E; [done|by injection H as <-|].
    destruct (mkdir_p d m) as [m1|]; [|done]. injection H as <-.
    rewrite lookup_insert_ne; [by apply IH|]. intros <-. congruence.
Qed.

(** A move onto a free path changes nothing outside the source. *)
Lemma shutil_move_keeps (src dst q : path) m m' n :
  shutil_move src dst m = Some m' →
  path_exists m dst = false →
  under src q = false → m !! q = Some n → m' !! q = Some n.
Proof.
  intros H Hfree Hq Hn. unfold shutil_move in H.
  assert (is_dir m dst = false) as Hnd.
  { unfold is_dir. unfold path_exists in Hfree. by destruct (node_at m dst). }
  rewrite Hnd in H. cbn [andb] in H.
  assert (q ≠ dst) as Hqd.
  { intros ->. unfold path_exists, node_at in Hfree.
    destruct dst; [done|]. by rewrite Hn in Hfree. }
  destruct (node_at m src) as [[t x|]|]; [| |done].
  - destruct (is_dir m (parent dst)); [|done]. injection H as <-.
    rewrite lookup_insert_ne, lookup_delete_ne; [done| |done].
    intros ->. unfold under in Hq. by rewrite bool_decide_true in Hq.
  - destruct (under src dst || path_exists m dst); [done|].
    destruct (mkdir_p (parent dst) m) as [m1|] eqn:Hmk; [|done].
    injection H as <-. apply move_tree_keeps; [done|].
    by eapply mkdir_p_keeps.
Qed.

(** ** Collision resolution in [do_moves] *)

(** Lines 39-46 on an existing destination with a name. *)
Lemma dedupe_existing (d : path) nm w :
  path_exists (fs w) (d </> nm) = true →
  ∃ k, (1 ≤ k)%nat ∧
    (∀ j, (1 ≤ j < k)%nat →
       path_exists (fs w)
         (d </> cand_name (stem_of_name nm) (suffix_of_name nm) j) = true) ∧
    path_exists (fs w)
      (d </> cand_name (stem_of_name nm) (suffix_of_name nm) k) = false ∧
    dedupe (d </> nm) w
    = Ok (d </> cand_name (stem_of_name nm) (suffix_of_name nm) k) w.
Proof.
  intros He.
  destruct (dedupe_loop_first_free (d </> nm) (stem_of_name nm)
              (suffix_of_name nm) w) as (k & Hk & Hbelow & Hfree & Hrun).
  exists k. split; [lia|]. split; [done|]. split; [done|].
  unfold dedupe. rewrite bind_ask, He, bind_ask.
  unfold stem, suffix. cbn [name]. rewrite Hrun by lia. done.
Qed.


(** C4: in a directory tree, a non-dry-run move whose destination already
    exists goes to the candidate "stem (k)suffix" with the least [k >= 1]
    that does not exist: the executor moves the source to that path, prints
    it and records it.  When the move succeeds, every entry outside the
    source is left as it was, so nothing is overwritten; a regular file
    lands at the candidate path, and the file system is a directory tree
    again. *)
Theorem do_moves_collision (src d : path) nm ops performed w :
  tree (fs w) →
  path_exists (fs w) (d </> nm) = true →
  ∃ k, (1 ≤ k)%nat ∧
    (∀ j, (1 ≤ j < k)%nat →
       path_exists (fs w)
         (d </> cand_name (stem_of_name nm) (suffix_of_name nm) j) = true) ∧
    let final := d </> cand_name (stem_of_name nm) (suffix_of_name nm) k in
    path_exists (fs w) final = false ∧
    do_moves_loop false ((src, d </> nm) :: ops) performed w
    = (syscall (shutil_move src final);;
       print ("[MOVE] " +:+ path_str src +:+ " -> " +:+ path_str final);;
       do_moves_loop false ops (performed ++ [(src, final)])) w ∧
    (∀ m', shutil_move src final (fs w) = Some m' →
       ∀ q n, under src q = false → fs w !! q = Some n → m' !! q = Some n) ∧
    (∀ t x, node_at (fs w) src = Some (File t x) →
       let m' := <[final := File t x]> (delete src (fs w)) in
       shutil_move src final (fs w) = Some m' ∧ tree m' ∧
       ∀ q n, q ≠ src → fs w !! q = Some n → m' !! q = Some n).
Proof.
  intros Ht He.
  destruct (dedupe_existing d nm w He) as (k & Hk & Hbelow & Hfree & Hrun).
  pose proof (tree_parent_is_dir _ _ _ Ht He) as Hd.
  exists k. split; [done|]. split; [done|]. cbn zeta.
  split; [done|]. split; [|split].
  - cbn [do_moves_loop parent].
    rewrite (bind_syscall_Some _ _ _ (fs w)) by by apply mkdir_p_is_dir.
    destruct w as [m out err]; cbn [fs stdout stderr] in *.
    by rewrite (bind_Ok _ _ _ _ _ Hrun).
  - intros m' Hmv q n Hq Hn. by eapply shutil_move_keeps.
  - intros t x Hsrc. split; [by apply shutil_move_file_free|].
    split; [by apply tree_after_move|].
    intros q n Hq Hn.
    rewrite lookup_insert_ne, lookup_delete_ne; [done|done|].
    intros <-. unfold path_exists, node_at in Hfree. by rewrite Hn in Hfree.
Qed.

(** ** The undo log that is not there *)

(** C7: when the undo log path does not exist, [undo] prints
    "No undo log found." and returns normally, in either mode; the file
    system is the one it started from. *)
Theorem undo_missing_log (undo_log : path) dry_run w :
  path_exists (fs w) undo_log = false →
  undo undo_log dry_run w
  = Ok tt (World (fs w) (stdout w ++ ["No undo log found."]) (stderr w)).
Proof. intros He. unfold undo. by rewrite bind_ask, He. Qed.

(** ** The planner *)

Lemma elem_of_children m (d p : path) :
  p ∈ children m d ↔ (∃ n, p = d </> n) ∧ is_Some (m !! p).
Proof.
  unfold children. rewrite list_elem_of_filter, list_elem_of_fmap. split.
  - intros [[Hne Hpar] ([q x] & -> & Hin%elem_of_map_to_list)].
    cbn [fst] in *. split; [|by eexists].
    destruct q as [|n q]; [done|]. exists n. by rewrite <-Hpar.
  - intros [[n ->] [x Hx]]. split; [done|].
    exists (d </> n, x). split; [done|]. by apply elem_of_map_to_list.
Qed.

Section Planner.

Variable scandir : FS → path → list path.
Variable fromtimestamp : Z → nat * nat.

Lemma dest_of_inv target mode p w d w' :
  dest_of fromtimestamp target mode p w = Ok d w' →
  w' = w ∧ name d = name p.
Proof.
  unfold dest_of.
  destruct (String.eqb mode "ext"); [by intros [= <- <-]|].
  destruct (String.eqb mode "date"); [|done].
  unfold mbind, M_bind, stat_date.
  destruct (st_mtime (fs w) p); [|done]. by intros [= <- <-].
Qed.

Lemma dest_of_total target mode p w :
  mode = "ext" ∨ mode = "date" →
  path_exists (fs w) p = true →
  ∃ d, dest_of fromtimestamp target mode p w = Ok d w.
Proof.
  intros [-> | ->] He; [by eexists|].
  unfold dest_of. cbn [String.eqb Ascii.eqb Bool.eqb].
  unfold mbind, M_bind, stat_date, st_mtime. unfold path_exists in He.
  destruct (node_at (fs w) p) as [[]|]; [by eexists|by eexists|done].
Qed.

(** What one run of the loop adds to [ops]. *)
Lemma plan_loop_inv target mode entries : ∀ ops0 w ops w',
  plan_loop fromtimestamp target mode entries ops0 w = Ok ops w' →
  w' = w ∧ ∃ new, ops = (ops0 ++ new)%list ∧
    ∀ o d, (o, d) ∈ new →
      o ∈ entries ∧ is_dir (fs w) o = false ∧ o ≠ d ∧
      dest_of fromtimestamp target mode o w = Ok d w.
Proof.
  induction entries as [|p entries IH]; intros ops0 w ops w' H.
  - injection H as <- <-. split; [done|]. exists [].
    split; [by rewrite app_nil_r|]. by intros ?? ?%elem_of_nil.
  - cbn [plan_loop] in H. rewrite bind_ask in H.
    destruct (is_dir (fs w) p) eqn:Hdir.
    { apply IH in H as (-> & new & -> & Hnew). split; [done|].
      exists new. split; [done|]. intros o d Hin.
      destruct (Hnew o d Hin) as (? & ? & ? & ?). by rewrite elem_of_cons; auto. }
    destruct (dest_of fromtimestamp target mode p w) as [dest w1| |] eqn:Hd;
      [|by rewrite (bind_Raise _ _ _ _ _ Hd) in H
       |by unfold mbind, M_bind in H; rewrite Hd in H].
    rewrite (bind_Ok _ _ _ _ _ Hd) in H.
    apply dest_of_inv in Hd as Hw. destruct Hw as [-> _].
    case_bool_decide as Heq.
    { apply IH in H as (-> & new & -> & Hnew). split; [done|].
      exists new. split; [done|]. intros o d Hin.
      destruct (Hnew o d Hin) as (? & ? & ? & ?). by rewrite elem_of_cons; auto. }
    apply IH in H as (-> & new & -> & Hnew). split; [done|].
    exists ((p, dest) :: new). split; [by rewrite <-app_assoc|].
    intros o d [[= -> ->]|Hin]%elem_of_cons.
    + by rewrite elem_of_cons; auto.
    + destruct (Hnew o d Hin) as (? & ? & ? & ?). by rewrite elem_of_cons; auto.
Qed.

Lemma plan_loop_total target mode entries : ∀ ops0 w,
  mode = "ext" ∨ mode = "date" →
  (∀ p, p ∈ entries → path_exists (fs w) p = true) →
  ∃ ops, plan_loop fromtimestamp target mode entries ops0 w = Ok ops w.
Proof.
  induction entries as [|p entries IH]; intros ops0 w Hmode Hex.
  - by eexists.
  - cbn [plan_loop]. rewrite bind_ask.
    assert (∀ q, q ∈ entries → path_exists (fs w) q = true) as Hex'.
    { intros q ?. apply Hex. by apply elem_of_cons; auto. }
    destruct (is_dir (fs w) p); [by apply IH|].
    destruct (dest_of_total target mode p w Hmode) as [d Hd].
    { apply Hex. by apply elem_of_cons; auto. }
    rewrite (bind_Ok _ _ _ _ _ Hd). case_bool_decide; by apply IH.
Qed.

End Planner.

Section PlannerClaims.

Variable scandir : FS → path → list path.
Variable fromtimestamp : Z → nat * nat.

(** [iterdir] yields the direct entries of the directory, in some order. *)
Hypothesis scandir_children : ∀ m d, scandir m d ≡ₚ children m d.

Lemma plan_moves_inv source target mode w ops w' :
  plan_moves scandir fromtimestamp source target mode w = Ok ops w' →
  w' = w ∧
  ∀ o d, (o, d) ∈ ops →
    o ∈ children (fs w) source ∧ is_dir (fs w) o = false ∧ o ≠ d ∧
    dest_of fromtimestamp target mode o w = Ok d w.
Proof.
  unfold plan_moves, iterdir, mbind, M_bind.
  destruct (is_dir (fs w) source); [|done].
  intros (-> & new & -> & Hnew)%plan_loop_inv. split; [done|].
  intros o d Hin. rewrite app_nil_l in Hin.
  destruct (Hnew o d Hin) as (Ho & ? & ? & ?).
  by rewrite scandir_children in Ho.
Qed.

Lemma plan_moves_total source target mode w :
  is_dir (fs w) source = true →
  mode = "ext" ∨ mode = "date" →
  ∃ ops, plan_moves scandir fromtimestamp source target mode w = Ok ops w.
Proof.
  intros Hdir Hmode. unfold plan_moves, iterdir, mbind, M_bind.
  rewrite Hdir. apply plan_loop_total; [done|].
  intros p Hp. rewrite scandir_children in Hp.
  apply elem_of_children in Hp as [[n ->] [x Hx]].
  unfold path_exists, node_at. by rewrite Hx.
Qed.


(** C9: in any plan the planner returns, whatever the mode, each
    destination has the file name of its origin, and each origin is a
    direct entry of the source directory that is a regular file. *)
Theorem plan_moves_keeps_names source target mode w ops w' :
  plan_moves scandir fromtimestamp source target mode w = Ok ops w' →
  ∀ o d, (o, d) ∈ ops →
    name d = name o ∧ parent o = source ∧ o ≠ root ∧
    ∃ t x, fs w !! o = Some (File t x).
Proof.
  intros [_ Hops]%plan_moves_inv o d Hin.
  destruct (Hops o d Hin) as (Ho & Hnd & _ & Hd).
  apply dest_of_inv in Hd as [_ Hname].
  apply elem_of_children in Ho as [[n ->] [x Hx]].
  split; [done|]. split; [done|]. split; [done|].
  unfold is_dir, node_at in Hnd. rewrite Hx in Hnd.
  destruct x as [t x|]; [by eauto|done].
Qed.

(** The by-extension loop, in closed form. *)
Lemma plan_loop_ext target entries : ∀ ops0 w,
  plan_loop fromtimestamp target "ext" entries ops0 w
  = Ok (ops0 ++
          ((λ p, (p, target </> ext_of p </> name p)) <$>
             filter (λ p, p ≠ target </> ext_of p </> name p)
               (filter (λ p, is_dir (fs w) p = false) entries)))%list w.
Proof.
  induction entries as [|p entries IH]; intros ops0 w.
  - by rewrite app_nil_r.
  - cbn [plan_loop]. rewrite bind_ask.
    destruct (is_dir (fs w) p) eqn:Hdir.
    { rewrite IH, (filter_cons_False _ p); [done|]. by rewrite Hdir. }
    rewrite (filter_cons_True _ p) by done.
    unfold dest_of. cbn [String.eqb Ascii.eqb Bool.eqb]. rewrite bind_ret.
    case_bool_decide as Heq.
    + rewrite IH, filter_cons_False; [done|]. by intros ?.
    + rewrite IH, filter_cons_True by done.
      by rewrite fmap_cons, <-app_assoc.
Qed.

(** C5, amended: when the regular files of the source directory are
    exactly a.txt, b.TXT and c, and the source directory is neither
    <target>/txt nor <target>/no_ext, the by-extension plan consists of
    exactly the three operations a.txt to <target>/txt/a.txt, b.TXT to
    <target>/txt/b.TXT and c to <target>/no_ext/c. *)
Theorem plan_moves_ext_scenario (source target : path) w :
  is_dir (fs w) source = true →
  filter (λ p, is_dir (fs w) p = false) (scandir (fs w) source)
    ≡ₚ [source </> "a.txt"; source </> "b.TXT"; source </> "c"] →
  source ≠ target </> "txt" →
  source ≠ target </> "no_ext" →
  ∃ ops, plan_moves scandir fromtimestamp source target "ext" w = Ok ops w ∧
    ops ≡ₚ [(source </> "a.txt", target </> "txt" </> "a.txt");
            (source </> "b.TXT", target </> "txt" </> "b.TXT");
            (source </> "c", target </> "no_ext" </> "c")].
Proof.
  intros Hdir Hfiles Htxt Hno.
  unfold plan_moves, iterdir, mbind, M_bind. rewrite Hdir.
  rewrite plan_loop_ext. eexists. split; [done|].
  rewrite app_nil_l, Hfiles.
  rewrite !filter_cons_True, filter_nil; [done|..];
    intros [= ?]; done.
Qed.

End PlannerClaims.

(** ** [do_moves] never runs out of fuel *)

Lemma dedupe_terminates dst w : dedupe dst w ≠ OutOfFuel.
Proof.
  unfold dedupe. rewrite bind_ask.
  destruct (path_exists (fs w) dst); [|done]. rewrite bind_ask.
  destruct (dedupe_loop_first_free dst (stem dst) (suffix dst) w)
    as (k & Hk & _ & _ & Hrun).
  rewrite Hrun by lia. by destruct dst.
Qed.

Lemma do_moves_loop_terminates dry_run ops : ∀ performed w,
  do_moves_loop dry_run ops performed w ≠ OutOfFuel.
Proof.
  induction ops as [|[src dst] ops IH]; intros performed w; [done|].
  cbn [do_moves_loop].
  destruct (mkdir_p (parent dst) (fs w)) as [m1|] eqn:Hmk;
    [|by rewrite (bind_syscall_None _ _ _ Hmk)].
  rewrite (bind_syscall_Some _ _ _ _ Hmk).
  destruct dry_run; [rewrite bind_print; apply IH|].
  match goal with |- (dedupe dst ≫= _) ?w1 ≠ _ =>
    pose proof (dedupe_terminates dst w1) as Hd;
    destruct (dedupe dst w1) as [dst' w2|e w2|] eqn:Hdd; [|by rewrite (bind_Raise _ _ _ _ _ Hdd)|done]
  end.
  rewrite (bind_Ok _ _ _ _ _ Hdd).
  destruct (shutil_move src dst' (fs w2)) as [m2|] eqn:Hmv;
    [|by rewrite (bind_syscall_None _ _ _ Hmv)].
  rewrite (bind_syscall_Some _ _ _ _ Hmv), bind_print. apply IH.
Qed.

Lemma do_moves_terminates now ops dry_run undo_log w :
  do_moves now ops dry_run undo_log w ≠ OutOfFuel.
Proof.
  unfold do_moves.
  pose proof (do_moves_loop_terminates dry_run ops [] w) as H.
  destruct (do_moves_loop dry_run ops [] w) as [p w1|e w1|] eqn:Hl;
    [|by rewrite (bind_Raise _ _ _ _ _ Hl)|done].
  rewrite (bind_Ok _ _ _ _ _ Hl).
  destruct undo_log as [lg|]; [|done].
  destruct (negb dry_run && negb (bool_decide (p = []))); [|done].
  destruct (write_text now lg (MoveLog p) (fs w1)) as [m2|] eqn:Hw.
  - by rewrite (bind_syscall_Some _ _ _ _ Hw).
  - by rewrite (bind_syscall_None _ _ _ Hw).
Qed.

(** ** Dry runs of [do_moves] *)

Lemma only_dirs_added_refl m : only_dirs_added m m.
Proof. intros q. by left. Qed.

Lemma only_dirs_added_trans m1 m2 m3 :
  only_dirs_added m1 m2 → only_dirs_added m2 m3 → only_dirs_added m1 m3.
Proof.
  intros H12 H23 q. destruct (H12 q) as [E12|[E1 E2]], (H23 q) as [E23|[E2' E3]].
  - left. congruence.
  - right. split; congruence.
  - right. split; congruence.
  - congruence.
Qed.

Lemma mkdir_p_only_dirs p : ∀ m m',
  mkdir_p p m = Some m' → only_dirs_added m m'.
Proof.
  induction p as [|n d IH]; intros m m' H; cbn [mkdir_p] in H.
  - injection H as <-. apply only_dirs_added_refl.
  - destruct (m !! (d </> n)) as [[]|] eqn:E; [done| |].
    + injection H as <-. apply only_dirs_added_refl.
    + destruct (mkdir_p d m) as [m1|] eqn:Hd; [|done]. injection H as <-.
      intros q. destruct (decide (q = d </> n)) as [->|Hq].
      * right. by rewrite lookup_insert_eq.
      * rewrite lookup_insert_ne by done. by apply (IH _ _ Hd).
Qed.

(** A dry run records nothing and never runs out of fuel; whether it
    returns or raises, it has changed nothing but by creating directories. *)
Lemma do_moves_loop_dry_run ops : ∀ performed w,
  match do_moves_loop true ops performed w with
  | Ok p w' => p = performed ∧ only_dirs_added (fs w) (fs w')
  | Raise _ w' => only_dirs_added (fs w) (fs w')
  | OutOfFuel => False
  end.
Proof.
  induction ops as [|[src dst] ops IH]; intros performed w.
  - split; [done|apply only_dirs_added_refl].
  - cbn [do_moves_loop].
    destruct (mkdir_p (parent dst) (fs w)) as [m1|] eqn:Hmk.
    + rewrite (bind_syscall_Some _ _ _ _ Hmk), bind_print.
      apply mkdir_p_only_dirs in Hmk.
      match goal with |- context [do_moves_loop true ops performed ?w1] =>
        specialize (IH performed w1); destruct (do_moves_loop true ops performed w1)
      end; cbn [fs] in IH.
      * destruct IH as [-> IH]. split; [done|]. by eapply only_dirs_added_trans.
      * by eapply only_dirs_added_trans.
      * done.
    + rewrite (bind_syscall_None _ _ _ Hmk). apply only_dirs_added_refl.
Qed.

Lemma do_moves_dry_run now ops undo_log w :
  match do_moves now ops true undo_log w with
  | Ok _ w' | Raise _ w' => only_dirs_added (fs w) (fs w')
  | OutOfFuel => False
  end.
Proof.
  unfold do_moves, mbind, M_bind.
  pose proof (do_moves_loop_dry_run ops [] w) as H.
  destruct (do_moves_loop true ops [] w) as [p w'|e w'|]; [|done|done].
  destruct H as [-> H]. by destruct undo_log.
Qed.

(** ** What [undo] does with a record *)

(** Records whose first component (the origin written by [do_moves]) is
    absent, and whose second lies in an existing directory, are all skipped:
    the file system stays as it is. *)
Lemma undo_loop_origins_absent moves : ∀ w,
  (∀ a b, (a, b) ∈ moves →
     path_exists (fs w) a = false ∧ is_dir (fs w) (parent b) = true) →
  undo_loop false moves w
  = Ok tt (World (fs w) (stdout w ++ (skip_line <$> moves)) (stderr w)).
Proof.
  induction moves as [|[a b] moves IH]; intros w H.
  - destruct w. cbn. by rewrite app_nil_r.
  - destruct (H a b) as [Ha Hb]; [by apply elem_of_cons; auto|].
    cbn [undo_loop].
    assert (∀ (k : unit → M unit) (c : M unit) v,
      c w = Ok tt v → (c ≫= k) w = k tt v) as Hbind
      by (intros k c v Hc; exact (bind_Ok c k w tt v Hc)).
    erewrite Hbind; cycle 1.
    { rewrite (bind_syscall_Some _ _ _ (fs w)) by by apply mkdir_p_is_dir.
      cbn [fs]. rewrite bind_ask. cbn [fs]. rewrite Ha. reflexivity. }
    rewrite IH.
    + cbn [fs stdout stderr fmap list_fmap]. by rewrite <-app_assoc.
    + intros a' b' Hin. cbn [fs]. apply H. by apply elem_of_cons; auto.
Qed.

(** ** Runs on sample file systems *)

Import Sample.

(** C1 (the code does otherwise): organizing /s, which holds a.txt, moves
    the file to /s/txt/a.txt and writes the log; the undo run that follows
    skips the record, so the file is still at /s/txt/a.txt and not back at
    /s/a.txt. *)
Theorem organize_then_undo_not_restored :
  let moved :=
    ["[MOVE] /s/a.txt -> /s/txt/a.txt";
     "[LOG] Undo log written to /undo_moves.json"] in
  main_organize children date clock src src "ext" false log (world_of one_file)
  = Ok 0%Z (World organized moved [])
  ∧ undo log false (World organized moved [])
    = Ok tt (World organized
               (moved ++ ["[SKIP] Missing /s/a.txt, cannot undo."]) [])
  ∧ (src </> "a.txt") ∈ file_paths one_file
  ∧ ((src </> "a.txt") ∉ file_paths organized)
  ∧ (src </> "txt" </> "a.txt") ∈ file_paths organized.
Proof.
  cbn zeta. split; [by vm_compute|]. split; [by vm_compute|].
  repeat split; apply (bool_decide_unpack _); by vm_compute.
Qed.

(** C2 (the code does otherwise): [undo] takes the first component of a
    record, the origin, for the file to move and the second, the
    destination, for where to move it.  With the file at the recorded
    destination the record is skipped; with a file at the recorded origin
    that file is moved to the recorded destination. *)
Theorem undo_moves_origin_to_destination :
  undo log false (world_of organized)
  = Ok tt (World organized ["[SKIP] Missing /s/a.txt, cannot undo."] [])
  ∧ undo log false (world_of refilled)
    = Ok tt (World
               (<[src </> "txt" </> "a.txt" := File 40 (Opaque 4)]>
                  (<[src </> "txt" := Dir]> (delete (src </> "a.txt") refilled)))
               ["[UNDO] /s/a.txt -> /s/txt/a.txt"] []).
Proof. split; by vm_compute. Qed.

(** C3 (the code does otherwise): a dry run of organizing /s, which holds
    a.txt, creates the directory /s/txt that was not there. *)
Theorem dry_run_creates_directory :
  one_file !! (src </> "txt") = None
  ∧ main_organize children date clock src src "ext" true log (world_of one_file)
    = Ok 0%Z (World (<[src </> "txt" := Dir]> one_file)
                ["[DRY] /s/a.txt -> /s/txt/a.txt"] []).
Proof. split; by vm_compute. Qed.

(** C8 (the code does otherwise): of two records, the second has lost its
    destination /s/txt/b.txt and the first still has its own,
    /s/txt/a.txt.  [undo] skips both: a.txt is not moved back.  And a
    record whose destination /s/txt/a.txt is absent is not skipped when a
    file is at its origin: that file is moved away. *)
Theorem undo_skips_record_with_destination :
  (src </> "txt" </> "a.txt") ∈ file_paths one_deleted
  ∧ undo log false (world_of one_deleted)
    = Ok tt (World one_deleted
               ["[SKIP] Missing /s/b.txt, cannot undo.";
                "[SKIP] Missing /s/a.txt, cannot undo."] [])
  ∧ path_exists refilled (src </> "txt" </> "a.txt") = false
  ∧ ∃ m, undo log false (world_of refilled)
         = Ok tt (World m ["[UNDO] /s/a.txt -> /s/txt/a.txt"] [])
       ∧ path_exists m (src </> "a.txt") = false.
Proof.
  split; [apply (bool_decide_unpack _); by vm_compute|].
  split; [by vm_compute|]. split; [by vm_compute|].
  eexists. split; by vm_compute.
Qed.

(** C5 as stated fails: /t/txt holds exactly the regular files a.txt,
    b.TXT and c, and its by-extension plan into /t has the single operation
    for c, a.txt and b.TXT being where the plan would put them. *)
Lemma plan_moves_ext_scenario_in_bucket :
  is_dir in_bucket (tgt </> "txt") = true
  ∧ filter (λ p, is_dir in_bucket p = false) (children in_bucket (tgt </> "txt"))
    = [tgt </> "txt" </> "a.txt"; tgt </> "txt" </> "c"; tgt </> "txt" </> "b.TXT"]
  ∧ plan_moves children date (tgt </> "txt") tgt "ext" (world_of in_bucket)
    = Ok [(tgt </> "txt" </> "c", tgt </> "no_ext" </> "c")] (world_of in_bucket).
Proof. repeat split; by vm_compute. Qed.

(** The scenario of the specification: report.txt and report (1).txt are
    taken, so the file lands at report (2).txt. *)
Example do_moves_report_taken :
  do_moves clock [(src </> "report.txt", tgt </> "txt" </> "report.txt")]
    false None (world_of taken)
  = Ok tt (World
             (<[tgt </> "txt" </> "report (2).txt" := File 10 (Opaque 1)]>
                (delete (src </> "report.txt") taken))
             ["[MOVE] /s/report.txt -> /t/txt/report (2).txt"] []).
Proof. by vm_compute. Qed.

(** Two files planned to /t/txt/report.txt: the second one executed lands
    at /t/txt/report (1).txt. *)
Example do_moves_two_reports :
  do_moves clock
    [(src </> "report.txt", tgt </> "txt" </> "report.txt");
     (src </> "old" </> "report.txt", tgt </> "txt" </> "report.txt")]
    false (Some log) (world_of two_reports)
  = Ok tt (World
             (list_to_map
                [(src, Dir); (src </> "old", Dir); (tgt, Dir);
                 (tgt </> "txt", Dir);
                 (tgt </> "txt" </> "report.txt", File 10 (Opaque 1));
                 (tgt </> "txt" </> "report (1).txt", File 20 (Opaque 2));
                 (log, File clock
                         (MoveLog
                            [(src </> "report.txt",
                              tgt </> "txt" </> "report.txt");
                             (src </> "old" </> "report.txt",
                              tgt </> "txt" </> "report (1).txt")]))])
             ["[MOVE] /s/report.txt -> /t/txt/report.txt";
              "[MOVE] /s/old/report.txt -> /t/txt/report (1).txt";
              "[LOG] Undo log written to /undo_moves.json"] []).
Proof. by vm_compute. Qed.

(** ** The theorems at sample inputs *)

(** The listing the sample runs use: the entries in the order of the map. *)
Lemma children_listing (m : FS) (d : path) : children m d ≡ₚ children m d.
Proof. reflexivity. Defined.

(** [do_moves_collision] on /s/report.txt, whose destination in /t/txt is
    taken. *)
Lemma do_moves_collision_witness :
  tree taken
  ∧ path_exists taken (tgt </> "txt" </> "report.txt") = true
  ∧ ∃ k, (1 ≤ k)%nat
      ∧ path_exists taken (tgt </> "txt" </> cand_name "report" ".txt" k) = false
      ∧ shutil_move (src </> "report.txt")
          (tgt </> "txt" </> cand_name "report" ".txt" k) taken
        = Some (<[tgt </> "txt" </> cand_name "report" ".txt" k
                  := File 10 (Opaque 1)]>
                  (delete (src </> "report.txt") taken)).
Proof.
  assert (tree taken) as Ht by (apply (bool_decide_unpack _); by vm_compute).
  assert (path_exists taken (tgt </> "txt" </> "report.txt") = true)
    as He by by vm_compute.
  split; [exact Ht|]. split; [exact He|].
  destruct (do_moves_collision (src </> "report.txt") (tgt </> "txt")
              "report.txt" [] [] (world_of taken) Ht He)
    as (k & Hk & _ & Hfree & _ & _ & Hfile).
  exists k. split; [exact Hk|]. split; [exact Hfree|].
  apply (Hfile 10%Z (Opaque 1)). by vm_compute.
Defined.

(** [plan_moves_ext_scenario] on /s, organized into itself. *)
Lemma plan_moves_ext_scenario_witness :
  is_dir three_files src = true
  ∧ filter (λ p, is_dir three_files p = false) (children three_files src)
    ≡ₚ [src </> "a.txt"; src </> "b.TXT"; src </> "c"]
  ∧ src ≠ src </> "txt"
  ∧ src ≠ src </> "no_ext"
  ∧ ∃ ops,
      plan_moves children date src src "ext" (world_of three_files)
      = Ok ops (world_of three_files)
      ∧ ops ≡ₚ [(src </> "a.txt", src </> "txt" </> "a.txt");
                (src </> "b.TXT", src </> "txt" </> "b.TXT");
                (src </> "c", src </> "no_ext" </> "c")].
Proof.
  assert (is_dir three_files src = true) as Hd by by vm_compute.
  assert (filter (λ p, is_dir three_files p = false) (children three_files src)
          ≡ₚ [src </> "a.txt"; src </> "b.TXT"; src </> "c"]) as Hf.
  { replace (filter _ _) with [src </> "a.txt"; src </> "c"; src </> "b.TXT"]
      by by vm_compute.
    apply perm_skip, perm_swap. }
  assert (src ≠ src </> "txt") as H1 by done.
  assert (src ≠ src </> "no_ext") as H2 by done.
  split; [exact Hd|]. split; [exact Hf|]. split; [exact H1|]. split; [exact H2|].
  exact (plan_moves_ext_scenario children date src src (world_of three_files)
           Hd Hf H1 H2).
Defined.


(** [undo_missing_log] where no log was written. *)
Lemma undo_missing_log_witness :
  path_exists one_file log = false
  ∧ undo log false (world_of one_file)
    = Ok tt (World one_file ["No undo log found."] []).
Proof.
  assert (path_exists one_file log = false) as He by by vm_compute.
  split; [exact He|].
  exact (undo_missing_log log false (world_of one_file) He).
Defined.

(** [plan_moves_keeps_names] on /s, by date. *)
Lemma plan_moves_keeps_names_witness :
  (∀ m d, children m d ≡ₚ children m d)
  ∧ plan_moves children date src src "date" (world_of three_files)
    = Ok [(src </> "a.txt", src </> "2024" </> "05" </> "a.txt");
          (src </> "c", src </> "2024" </> "05" </> "c");
          (src </> "b.TXT", src </> "2024" </> "05" </> "b.TXT")]
        (world_of three_files)
  ∧ (src </> "c", src </> "2024" </> "05" </> "c")
    ∈ [(src </> "a.txt", src </> "2024" </> "05" </> "a.txt");
       (src </> "c", src </> "2024" </> "05" </> "c");
       (src </> "b.TXT", src </> "2024" </> "05" </> "b.TXT")]
  ∧ name (src </> "2024" </> "05" </> "c") = name (src </> "c")
  ∧ parent (src </> "c") = src
  ∧ src </> "c" ≠ root
  ∧ ∃ t x, three_files !! (src </> "c") = Some (File t x).
Proof.
  assert (plan_moves children date src src "date" (world_of three_files)
    = Ok [(src </> "a.txt", src </> "2024" </> "05" </> "a.txt");
          (src </> "c", src </> "2024" </> "05" </> "c");
          (src </> "b.TXT", src </> "2024" </> "05" </> "b.TXT")]
        (world_of three_files)) as Hp by by vm_compute.
  assert ((src </> "c", src </> "2024" </> "05" </> "c")
    ∈ [(src </> "a.txt", src </> "2024" </> "05" </> "a.txt");
       (src </> "c", src </> "2024" </> "05" </> "c");
       (src </> "b.TXT", src </> "2024" </> "05" </> "b.TXT")]) as Hin
    by (apply list_elem_of_further, list_elem_of_here).
  split; [exact children_listing|]. split; [exact Hp|]. split; [exact Hin|].
  exact (plan_moves_keeps_names children date children_listing src src "date"
           (world_of three_files) _ _ Hp _ _ Hin).
Defined.

(** * Further properties *)

(** ** The planner reads and never writes *)

Lemma dest_of_frame fromtimestamp target mode p w :
  match dest_of fromtimestamp target mode p w with
  | Ok _ w' | Raise _ w' => w' = w
  | OutOfFuel => False
  end.
Proof.
  unfold dest_of.
  destruct (String.eqb mode "ext"); [done|].
  destruct (String.eqb mode "date"); [|done].
  unfold mbind, M_bind, stat_date. by destruct (st_mtime (fs w) p).
Qed.

Lemma plan_loop_frame fromtimestamp target mode entries : ∀ ops0 w,
  match plan_loop fromtimestamp target mode entries ops0 w with
  | Ok _ w' | Raise _ w' => w' = w
  | OutOfFuel => False
  end.
Proof.
  induction entries as [|p entries IH]; intros ops0 w; [done|].
  cbn [plan_loop]. rewrite bind_ask.
  destruct (is_dir (fs w) p); [apply IH|].
  pose proof (dest_of_frame fromtimestamp target mode p w) as Hd.
  unfold mbind at 1, M_bind at 1.
  destruct (dest_of fromtimestamp target mode p w) as [d w1|e w1|];
    [subst w1|done|done].
  case_bool_decide; apply IH.
Qed.

(** X1: whatever [plan_moves] does, return a plan or raise, the file
    system and the output are what they were. *)
Theorem plan_moves_read_only scandir fromtimestamp source target mode w :
  match plan_moves scandir fromtimestamp source target mode w with
  | Ok _ w' | Raise _ w' => w' = w
  | OutOfFuel => False
  end.
Proof.
  unfold plan_moves, iterdir, mbind, M_bind.
  destruct (is_dir (fs w) source); [|done]. apply plan_loop_frame.
Qed.

(** ** What the plan holds *)

Section PlanContents.

Variable scandir : FS → path → list path.
Variable fromtimestamp : Z → nat * nat.
Hypothesis scandir_children : ∀ m d, scandir m d ≡ₚ children m d.

(** The loop adds, in the order of the entries, one operation for each
    entry that is no directory and not at its destination. *)
Lemma plan_loop_spec target mode entries : ∀ ops0 w ops w',
  plan_loop fromtimestamp target mode entries ops0 w = Ok ops w' →
  ∃ new, ops = (ops0 ++ new)%list ∧ new.*1 `sublist_of` entries ∧
    ∀ o d, (o, d) ∈ new ↔
      o ∈ entries ∧ is_dir (fs w) o = false ∧ o ≠ d ∧
      dest_of fromtimestamp target mode o w = Ok d w.
Proof.
  induction entries as [|p entries IH]; intros ops0 w ops w' H.
  - injection H as <- <-. exists []. rewrite app_nil_r.
    split; [done|]. split; [done|]. intros o d. split.
    + by intros ?%elem_of_nil.
    + by intros [?%elem_of_nil _].
  - cbn [plan_loop] in H. rewrite bind_ask in H.
    destruct (is_dir (fs w) p) eqn:Hdir.
    { apply IH in H as (new & -> & Hsub & Hnew). exists new.
      split; [done|]. split; [by apply sublist_cons|].
      intros o d. rewrite Hnew, elem_of_cons. split.
      - intros (? & ? & ? & ?). by auto.
      - intros ([->|?] & ? & ? & ?); [congruence|done]. }
    destruct (dest_of fromtimestamp target mode p w) as [dest w1| |] eqn:Hd;
      [|by rewrite (bind_Raise _ _ _ _ _ Hd) in H
       |by unfold mbind, M_bind in H; rewrite Hd in H].
    rewrite (bind_Ok _ _ _ _ _ Hd) in H.
    apply dest_of_inv in Hd as Hw. destruct Hw as [-> _].
    case_bool_decide as Heq.
    { apply IH in H as (new & -> & Hsub & Hnew). exists new.
      split; [done|]. split; [by apply sublist_cons|].
      intros o d. rewrite Hnew, elem_of_cons. split.
      - intros (? & ? & ? & ?). by auto.
      - intros ([->|?] & ? & ? & ?); [congruence|done]. }
    apply IH in H as (new & -> & Hsub & Hnew). exists ((p, dest) :: new).
    split; [by rewrite <-app_assoc|]. split; [by apply sublist_skip|].
    intros o d. rewrite !elem_of_cons, Hnew. split.
    + intros [[= -> ->]|(? & ? & ? & ?)]; by auto.
    + intros ([->|?] & ? & ? & ?); [left; congruence|by right].
Qed.

(** X2: an operation is in the plan exactly when its origin is an entry of
    the source directory that is no directory, its destination is the one
    computed for that entry, and the two differ: no such entry is left
    out. *)
Theorem plan_moves_complete source target mode w ops w' :
  plan_moves scandir fromtimestamp source target mode w = Ok ops w' →
  ∀ o d, (o, d) ∈ ops ↔
    o ∈ children (fs w) source ∧ is_dir (fs w) o = false ∧ o ≠ d ∧
    dest_of fromtimestamp target mode o w = Ok d w.
Proof.
  unfold plan_moves, iterdir, mbind, M_bind.
  destruct (is_dir (fs w) source); [|done].
  intros (new & -> & _ & Hnew)%plan_loop_spec o d.
  by rewrite app_nil_l, Hnew, scandir_children.
Qed.



End PlanContents.

(** ** A mode that is neither "ext" nor "date" *)

Lemma dest_of_invalid fromtimestamp target mode p w :
  mode ≠ "ext" → mode ≠ "date" →
  dest_of fromtimestamp target mode p w = Raise ValueError w.
Proof.
  intros H1%String.eqb_neq H2%String.eqb_neq. unfold dest_of.
  by rewrite H1, H2.
Qed.

Lemma plan_loop_invalid fromtimestamp target mode entries : ∀ ops0 w,
  mode ≠ "ext" → mode ≠ "date" →
  plan_loop fromtimestamp target mode entries ops0 w
  = if decide (Exists (λ p, is_dir (fs w) p = false) entries)
    then Raise ValueError w else Ok ops0 w.
Proof.
  induction entries as [|p entries IH]; intros ops0 w H1 H2.
  - by rewrite decide_False by by intros ?%Exists_nil.
  - cbn [plan_loop]. rewrite bind_ask.
    destruct (is_dir (fs w) p) eqn:Hdir.
    + rewrite IH by done. destruct (decide (Exists _ entries)) as [He|He].
      * by rewrite decide_True by by apply Exists_cons_tl.
      * rewrite decide_False; [done|].
        intros [?|?]%Exists_cons; [congruence|done].
    + rewrite decide_True by by apply Exists_cons_hd.
      by rewrite (bind_Raise _ _ _ _ _ (dest_of_invalid _ _ _ _ _ H1 H2)).
Qed.

(** X4: with a mode that is neither "ext" nor "date", [plan_moves] raises
    [ValueError] when the source directory has an entry that is no
    directory, and returns the empty plan when it has none: the mode is
    only looked at for such an entry. *)
Theorem plan_moves_invalid_mode scandir fromtimestamp source target mode w :
  is_dir (fs w) source = true →
  mode ≠ "ext" → mode ≠ "date" →
  plan_moves scandir fromtimestamp source target mode w
  = if decide (Exists (λ p, is_dir (fs w) p = false) (scandir (fs w) source))
    then Raise ValueError w else Ok [] w.
Proof.
  intros Hdir H1 H2. unfold plan_moves, iterdir, mbind, M_bind.
  rewrite Hdir. by apply plan_loop_invalid.
Qed.

(** ** Buckets by extension *)











(** ** Directories by date *)

Lemma length_string_app s t :
  String.length (s +:+ t) = (String.length s + String.length t)%nat.
Proof.
  induction s as [|c s IH]; [done|].
  rewrite string_app_cons. cbn [String.length]. by rewrite IH.
Qed.

Lemma length_zeros k : String.length (zeros k) = k.
Proof. induction k as [|k IH]; [done|]. cbn. by rewrite IH. Qed.

Lemma zero_pad_reads_back w n :
  Nat.of_uint <$> NilEmpty.uint_of_string (zero_pad w n) = Some n.
Proof.
  unfold zero_pad, str_nat. cbn zeta.
  generalize (w - String.length (NilEmpty.string_of_uint (Nat.to_uint n)))%nat.
  intros k.
  assert (∀ k, ∃ d, NilEmpty.uint_of_string
                      (zeros k +:+ NilEmpty.string_of_uint (Nat.to_uint n))
                    = Some d ∧ Nat.of_uint d = n) as H.
  { clear k. induction k as [|k (d & Hd & Hn)].
    - exists (Nat.to_uint n). split; [apply NilEmpty.usu|].
      apply DecimalNat.Unsigned.of_to.
    - exists (Decimal.D0 d). split; [|exact Hn].
      cbn [zeros]. rewrite string_app_cons.
      cbn [NilEmpty.uint_of_string]. by rewrite Hd. }
  destruct (H k) as (d & -> & <-). done.
Qed.

(** [f"{n:0{w}d}"] has [w] characters, or as many as [n] has digits when
    those are more. *)
Lemma length_zero_pad w n :
  String.length (zero_pad w n) = (w `max` String.length (str_nat n))%nat.
Proof.
  unfold zero_pad. cbn zeta. rewrite length_string_app, length_zeros. lia.
Qed.

(** X7: by date, an entry whose time falls in a year [y] of at most four
    digits and a month [mo] of at most two goes to
    <target>/YYYY/MM/<name>, where YYYY has exactly four digits and MM
    exactly two, and they read back as [y] and [mo]. *)
Theorem dest_of_date_layout fromtimestamp (target p : path) w t y mo :
  st_mtime (fs w) p = Some t →
  fromtimestamp t = (y, mo) →
  (String.length (str_nat y) ≤ 4)%nat →
  (String.length (str_nat mo) ≤ 2)%nat →
  ∃ yyyy mm,
    dest_of fromtimestamp target "date" p w
    = Ok (target </> yyyy </> mm </> name p) w
    ∧ String.length yyyy = 4%nat ∧ String.length mm = 2%nat
    ∧ Nat.of_uint <$> NilEmpty.uint_of_string yyyy = Some y
    ∧ Nat.of_uint <$> NilEmpty.uint_of_string mm = Some mo.
Proof.
  intros Ht Hf Hy Hm. exists (zero_pad 4 y), (zero_pad 2 mo).
  split; [|split; [|split; [|split]]].
  - unfold dest_of. cbn [String.eqb Ascii.eqb Bool.eqb].
    unfold mbind, M_bind, stat_date. by rewrite Ht, Hf.
  - rewrite length_zero_pad. lia.
  - rewrite length_zero_pad. lia.
  - apply zero_pad_reads_back.
  - apply zero_pad_reads_back.
Qed.

(** ** What the executor leaves alone *)

Lemma stops_in_bind {A B : Type} (c : M A) (k : A → M B) w (P : world → Prop) :
  (∀ e v, c w = Raise e v → P v) →
  (∀ a v, c w = Ok a v → ∃ w', stops_in (k a v) w' ∧ P w') →
  c w ≠ OutOfFuel →
  ∃ w', stops_in ((c ≫= k) w) w' ∧ P w'.
Proof.
  intros Hr Ho Hf. unfold mbind, M_bind.
  destruct (c w) as [a v|e v|]; [by apply Ho| |done].
  exists v. split; [done|]. by eapply Hr.
Qed.

(** Lines 39-46 read the file system and change nothing; the path they
    settle on does not exist, and is the destination or one of its
    candidates. *)
Lemma dedupe_outcome dst w :
  match dedupe dst w with
  | Ok dst' w' =>
      w' = w ∧ path_exists (fs w) dst' = false ∧
      (dst' = dst ∨
       ∃ k, (1 ≤ k)%nat ∧
         dst' = parent dst </> cand_name (stem dst) (suffix dst) k)
  | Raise _ w' => w' = w
  | OutOfFuel => False
  end.
Proof.
  unfold dedupe. rewrite bind_ask.
  destruct (path_exists (fs w) dst) eqn:He; [|by cbn; auto].
  rewrite bind_ask.
  destruct (dedupe_loop_first_free dst (stem dst) (suffix dst) w)
    as (k & Hk & _ & Hfree & Hrun).
  rewrite Hrun by lia. destruct dst as [|nm d]; [done|].
  cbn [with_name parent] in *. split; [done|]. split; [done|].
  right. exists k. split; [lia|done].
Qed.

Lemma do_moves_loop_keeps dry_run ops (q : path) n : ∀ performed w,
  fs w !! q = Some n →
  (∀ src, src ∈ ops.*1 → under src q = false) →
  match do_moves_loop dry_run ops performed w with
  | Ok _ w' | Raise _ w' => fs w' !! q = Some n
  | OutOfFuel => False
  end.
Proof.
  induction ops as [|[src dst] ops IH]; intros performed w Hq Hsrc; [done|].
  assert (under src q = false) as Hu
    by (apply Hsrc; rewrite fmap_cons; apply list_elem_of_here).
  assert (∀ s, s ∈ ops.*1 → under s q = false) as Hrest
    by (intros s ?; apply Hsrc; rewrite fmap_cons; by apply list_elem_of_further).
  cbn [do_moves_loop].
  destruct (mkdir_p (parent dst) (fs w)) as [m1|] eqn:Hmk;
    [|by rewrite (bind_syscall_None _ _ _ Hmk)].
  rewrite (bind_syscall_Some _ _ _ _ Hmk).
  pose proof (mkdir_p_keeps _ _ _ _ _ Hmk Hq) as Hq1.
  destruct dry_run; [rewrite bind_print; by apply IH|].
  match goal with |- context [(dedupe dst ≫= _) ?w1] =>
    pose proof (dedupe_outcome dst w1) as Hd;
    destruct (dedupe dst w1) as [dst' w2|e w2|] eqn:Hdd;
      [|by rewrite (bind_Raise _ _ _ _ _ Hdd); subst w2|done]
  end.
  rewrite (bind_Ok _ _ _ _ _ Hdd).
  destruct Hd as (Hw2 & Hfree & _).
  destruct (shutil_move src dst' (fs w2)) as [m2|] eqn:Hmv;
    [|by rewrite (bind_syscall_None _ _ _ Hmv); subst w2].
  rewrite (bind_syscall_Some _ _ _ _ Hmv), bind_print.
  subst w2. cbn [fs] in *.
  apply IH; [|done]. cbn [fs]. by eapply shutil_move_keeps.
Qed.

(** X8: an entry of the file system that is no source of the plan, lies
    under none, and is not the log file, is still there unchanged when
    [do_moves] stops, by returning or by raising, in a dry run or not: the
    executor overwrites and removes nothing else. *)
Theorem do_moves_keeps_others now ops dry_run undo_log w (q : path) n :
  fs w !! q = Some n →
  (∀ src, src ∈ ops.*1 → under src q = false) →
  undo_log ≠ Some q →
  ∃ w', stops_in (do_moves now ops dry_run undo_log w) w' ∧
        fs w' !! q = Some n.
Proof.
  intros Hq Hsrc Hlog. unfold do_moves.
  pose proof (do_moves_loop_keeps dry_run ops q n [] w Hq Hsrc) as Hl.
  unfold mbind, M_bind.
  destruct (do_moves_loop dry_run ops [] w) as [p w1|e w1|]; [|by eexists|done].
  destruct undo_log as [lg|]; [|by eexists].
  destruct (negb dry_run && negb (bool_decide (p = []))); [|by eexists].
  unfold syscall.
  destruct (write_text now lg (MoveLog p) (fs w1)) as [m2|] eqn:Hw;
    [|by eexists].
  eexists. split; [reflexivity|]. cbn [fs].
  unfold write_text in Hw.
  destruct (node_at (fs w1) lg) as [[]|]; try done;
    (destruct (is_dir (fs w1) (parent lg)); [|done]); injection Hw as <-;
    (rewrite lookup_insert_ne; [done|congruence]).
Qed.

(** ** Dry runs, in full *)

Lemma only_dirs_added_file_paths m m' :
  only_dirs_added m m' → file_paths m' = file_paths m.
Proof.
  intros H. apply set_eq. intros q. unfold file_paths.
  rewrite !elem_of_dom. unfold is_Some.
  setoid_rewrite map_lookup_filter_Some. cbn [snd].
  destruct (H q) as [E|[E1 E2]]; [by rewrite E|].
  rewrite E1, E2. split; intros (y & Hy & Hne); congruence.
Qed.

Lemma do_moves_loop_dry_run_output ops : ∀ performed w p w',
  do_moves_loop true ops performed w = Ok p w' →
  stdout w' = (stdout w ++ (dry_line <$> ops))%list ∧ stderr w' = stderr w.
Proof.
  induction ops as [|[src dst] ops IH]; intros performed w p w' H.
  - injection H as <- <-. by rewrite app_nil_r.
  - cbn [do_moves_loop] in H.
    destruct (mkdir_p (parent dst) (fs w)) as [m1|] eqn:Hmk;
      [|by rewrite (bind_syscall_None _ _ _ Hmk) in H].
    rewrite (bind_syscall_Some _ _ _ _ Hmk), bind_print in H.
    apply IH in H as [-> ->]. cbn [stdout stderr fmap list_fmap].
    by rewrite <-app_assoc.
Qed.

(** X9: a dry run of [do_moves] stops, by returning or by raising, having
    changed the file system by nothing but directories it created: the
    regular files, the log among them, are where and what they were.  When
    it returns it has printed one "[DRY]" line for each operation, in the
    order of the plan. *)
Theorem do_moves_dry_run_effects now ops undo_log w :
  ∃ w', stops_in (do_moves now ops true undo_log w) w' ∧
    only_dirs_added (fs w) (fs w') ∧
    file_paths (fs w') = file_paths (fs w) ∧
    (∀ u, do_moves now ops true undo_log w = Ok u w' →
       stdout w' = (stdout w ++ (dry_line <$> ops))%list).
Proof.
  pose proof (do_moves_dry_run now ops undo_log w) as H.
  unfold do_moves, mbind, M_bind in *.
  destruct (do_moves_loop true ops [] w) as [p w1|e w1|] eqn:Hl; [| |done].
  - apply do_moves_loop_dry_run_output in Hl as [Hout _].
    destruct undo_log as [lg|]; cbn [negb andb] in *;
      (exists w1; split; [done|]; split; [done|];
       split; [by apply only_dirs_added_file_paths|done]).
  - exists w1. split; [done|]. split; [done|].
    split; [by apply only_dirs_added_file_paths|done].
Qed.

(** ** The records and the log *)

Lemma do_moves_loop_records ops : ∀ performed w performed' w',
  do_moves_loop false ops performed w = Ok performed' w' →
  ∃ new, performed' = (performed ++ new)%list ∧ new.*1 = ops.*1 ∧
    Forall2 (λ r op, settled op.2 r.2) new ops.
Proof.
  induction ops as [|[src dst] ops IH]; intros performed w performed' w' H.
  - injection H as <- <-. exists []. by rewrite app_nil_r.
  - cbn [do_moves_loop] in H.
    destruct (mkdir_p (parent dst) (fs w)) as [m1|] eqn:Hmk;
      [|by rewrite (bind_syscall_None _ _ _ Hmk) in H].
    rewrite (bind_syscall_Some _ _ _ _ Hmk) in H.
    match type of H with (dedupe dst ≫= _) ?w1 = _ =>
      pose proof (dedupe_outcome dst w1) as Hd;
      destruct (dedupe dst w1) as [dst' w2|e w2|] eqn:Hdd;
        [|by rewrite (bind_Raise _ _ _ _ _ Hdd) in H|done]
    end.
    rewrite (bind_Ok _ _ _ _ _ Hdd) in H. destruct Hd as (_ & _ & Hset).
    destruct (shutil_move src dst' (fs w2)) as [m2|] eqn:Hmv;
      [|by rewrite (bind_syscall_None _ _ _ Hmv) in H].
    rewrite (bind_syscall_Some _ _ _ _ Hmv), bind_print in H.
    apply IH in H as (new & -> & Hfst & Hall).
    exists ((src, dst') :: new). split; [by rewrite <-app_assoc|].
    split; [by rewrite !fmap_cons, Hfst|]. by constructor.
Qed.

(** X10: when a non-dry run of [do_moves] on a plan that is not empty
    returns, the log file holds one record for each operation, in the order
    of the plan: the record's origin is the operation's, and its destination
    is the planned one or one of its candidates "stem (k)suffix" in the same
    directory.  The last line printed tells where the log is. *)
Theorem do_moves_writes_log now ops (log : path) w w' :
  do_moves now ops false (Some log) w = Ok tt w' →
  ops ≠ [] →
  ∃ performed,
    fs w' !! log = Some (File now (MoveLog performed)) ∧
    performed.*1 = ops.*1 ∧
    Forall2 (λ r op, settled op.2 r.2) performed ops ∧
    last (stdout w')
    = Some ("[LOG] Undo log written to " +:+ path_str log).
Proof.
  intros H Hne. unfold do_moves in H.
  destruct (do_moves_loop false ops [] w) as [p w1|e w1|] eqn:Hl;
    [|by rewrite (bind_Raise _ _ _ _ _ Hl) in H
     |by unfold mbind, M_bind in H; rewrite Hl in H].
  rewrite (bind_Ok _ _ _ _ _ Hl) in H.
  apply do_moves_loop_records in Hl as (new & -> & Hfst & Hall).
  rewrite app_nil_l in *. exists new.
  assert (new ≠ []) as Hnew by (intros ->; by destruct ops).
  rewrite bool_decide_false in H by done. cbn [negb andb] in H.
  destruct (write_text now log (MoveLog new) (fs w1)) as [m2|] eqn:Hw;
    [|by rewrite (bind_syscall_None _ _ _ Hw) in H].
  rewrite (bind_syscall_Some _ _ _ _ Hw) in H. injection H as <-.
  cbn [fs stdout]. split; [|split; [done|split; [done|apply last_snoc]]].
  unfold write_text in Hw.
  destruct (node_at (fs w1) log) as [[]|]; try done;
    (destruct (is_dir (fs w1) (parent log)); [|done]); injection Hw as <-;
    apply lookup_insert_eq.
Qed.

(** ** A destination that is free *)

Lemma mkdir_p_makes_dir p : ∀ m m', mkdir_p p m = Some m' → is_dir m' p = true.
Proof.
  destruct p as [|a d]; [done|]. intros m m' H. cbn [mkdir_p] in H.
  unfold is_dir, node_at.
  destruct (m !! (d </> a)) as [[]|] eqn:E; [done| |].
  - injection H as <-. by rewrite E.
  - destruct (mkdir_p d m); [|done]. injection H as <-.
    by rewrite lookup_insert_eq.
Qed.

Lemma mkdir_p_longer p : ∀ m m' (q : path),
  mkdir_p p m = Some m' → (length p < length q)%nat → m' !! q = m !! q.
Proof.
  induction p as [|a d IH]; intros m m' q H Hlen; cbn [mkdir_p] in H.
  - by injection H as <-.
  - destruct (m !! (d </> a)) as [[]|] eqn:E; [done|by injection H as <-|].
    destruct (mkdir_p d m) as [m1|] eqn:Hd; [|done]. injection H as <-.
    rewrite lookup_insert_ne.
    + apply (IH _ _ _ Hd). cbn [length] in Hlen. lia.
    + intros <-. lia.
Qed.

Lemma dedupe_free dst w :
  path_exists (fs w) dst = false → dedupe dst w = Ok dst w.
Proof. intros H. unfold dedupe. by rewrite bind_ask, H. Qed.

(** X11: a non-dry-run move of a regular file to a destination that does
    not exist, and whose directory can be made, creates that directory with
    its missing ancestors, moves the file to exactly the planned path,
    prints it and records it. *)
Theorem do_moves_free_destination (src d : path) nm ops performed w t x m1 :
  node_at (fs w) src = Some (File t x) →
  path_exists (fs w) (d </> nm) = false →
  mkdir_p d (fs w) = Some m1 →
  do_moves_loop false ((src, d </> nm) :: ops) performed w
  = do_moves_loop false ops (performed ++ [(src, d </> nm)])
      (World (<[d </> nm := File t x]> (delete src m1))
         (stdout w ++
          ["[MOVE] " +:+ path_str src +:+ " -> " +:+ path_str (d </> nm)])
         (stderr w)).
Proof.
  intros Hsrc Hfree Hmk. cbn [do_moves_loop parent].
  rewrite (bind_syscall_Some _ _ _ _ Hmk).
  assert (path_exists m1 (d </> nm) = false) as Hfree1.
  { unfold path_exists, node_at in *.
    rewrite (mkdir_p_longer _ _ _ _ Hmk); [done|]. cbn [length]. lia. }
  assert (node_at m1 src = Some (File t x)) as Hsrc1.
  { unfold node_at in *. destruct src; [done|]. by eapply mkdir_p_keeps. }
  erewrite bind_Ok; [|by apply dedupe_free].
  erewrite bind_syscall_Some; [by rewrite bind_print|].
  cbn [fs]. apply shutil_move_file_free; [done..|].
  by eapply mkdir_p_makes_dir.
Qed.

(** ** Runs of [undo] *)

Lemma undo_loop_dry_run moves : ∀ w,
  undo_loop true moves w
  = Ok tt (World (fs w) (stdout w ++ (dry_undo_line <$> moves)) (stderr w)).
Proof.
  induction moves as [|[a b] moves IH]; intros w.
  - destruct w. cbn. by rewrite app_nil_r.
  - cbn [undo_loop]. rewrite bind_print, IH.
    cbn [fs stdout stderr fmap list_fmap]. by rewrite <-app_assoc.
Qed.

Lemma undo_reads_log (log : path) dry_run w t l :
  node_at (fs w) log = Some (File t (MoveLog l)) →
  undo log dry_run w = undo_loop dry_run (rev l) w.
Proof.
  intros H. unfold undo. rewrite bind_ask. unfold path_exists.
  rewrite H. cbn [negb].
  apply (bind_Ok (read_log log) (λ moves, undo_loop dry_run (rev moves))).
  unfold read_log. by rewrite H.
Qed.

(** X12: a dry run of [undo] on a log changes nothing in the file system;
    it prints one "[DRY-UNDO]" line for each record, the last record first,
    naming the record's first path, then its second. *)
Theorem undo_dry_run (log : path) w t l :
  node_at (fs w) log = Some (File t (MoveLog l)) →
  undo log true w
  = Ok tt (World (fs w) (stdout w ++ (dry_undo_line <$> rev l)) (stderr w)).
Proof.
  intros H. rewrite (undo_reads_log _ _ _ _ _ H). apply undo_loop_dry_run.
Qed.

(** X13: when no first path of the log's records exists (as after the
    moves the log records) and every second path lies in an existing
    directory, a non-dry run of [undo] moves nothing: the file system is
    unchanged, and one "[SKIP]" line is printed for each record, the last
    record first. *)
Theorem undo_origins_absent (log : path) w t l :
  node_at (fs w) log = Some (File t (MoveLog l)) →
  (∀ a b, (a, b) ∈ l →
     path_exists (fs w) a = false ∧ is_dir (fs w) (parent b) = true) →
  undo log false w
  = Ok tt (World (fs w) (stdout w ++ (skip_line <$> rev l)) (stderr w)).
Proof.
  intros H Hl. rewrite (undo_reads_log _ _ _ _ _ H).
  apply undo_loop_origins_absent. intros a b Hin. apply Hl.
  by apply list_elem_of_In, in_rev, list_elem_of_In in Hin.
Qed.

(** X14: [undo] checks no collision.  For a record whose two paths are both
    regular files, a non-dry run replaces the file at the second path by
    the file of the first, which is gone from its place: what the second
    path held is lost. *)
Theorem undo_overwrites (log a b : path) w t ta xa tb xb :
  tree (fs w) →
  node_at (fs w) log = Some (File t (MoveLog [(a, b)])) →
  node_at (fs w) a = Some (File ta xa) →
  node_at (fs w) b = Some (File tb xb) →
  undo log false w
  = Ok tt (World (<[b := File ta xa]> (delete a (fs w)))
             (stdout w ++ ["[UNDO] " +:+ path_str a +:+ " -> " +:+ path_str b])
             (stderr w)).
Proof.
  intros Ht Hlog Ha Hb. rewrite (undo_reads_log _ _ _ _ _ Hlog).
  cbn [rev app undo_loop].
  assert (is_dir (fs w) (parent b) = true) as Hd.
  { destruct b as [|nb db]; [done|]. by apply (Ht _ _ Hb). }
  assert (shutil_move a b (fs w)
          = Some (<[b := File ta xa]> (delete a (fs w)))) as Hmv.
  { unfold shutil_move, is_dir. rewrite Hb. cbn [andb].
    rewrite Ha. unfold is_dir in Hd. by rewrite Hd. }
  assert (∀ (k : unit → M unit) (c : M unit) v,
    c w = Ok tt v → (c ≫= k) w = k tt v) as Hbind
    by (intros k c v Hc; exact (bind_Ok c k w tt v Hc)).
  erewrite Hbind; [reflexivity|].
  rewrite (bind_syscall_Some _ _ _ (fs w)) by by apply mkdir_p_is_dir.
  rewrite bind_ask. cbn [fs]. unfold path_exists. rewrite Ha.
  by rewrite (bind_syscall_Some (shutil_move a b) _
                (World (fs w) (stdout w) (stderr w)) _ Hmv).
Qed.

(** ** Exit codes of [main] *)

Section Main.

Variable scandir : FS → path → list path.
Variable fromtimestamp : Z → nat * nat.
Variable now : Z.
Hypothesis scandir_children : ∀ m d, scandir m d ≡ₚ children m d.

Lemma is_dir_exists m p : is_dir m p = true → path_exists m p = true.
Proof. unfold is_dir, path_exists. by destruct (node_at m p). Qed.

(** X15: when [main] returns, the exit code is 1 exactly when it was not
    asked to undo and the source is not an existing directory; then the
    file system and the standard output are untouched and the complaint is
    on the standard error.  In every other case it returns 0. *)
Theorem main_exit_code a w c w' :
  main scandir fromtimestamp now a w = Ok c w' →
  (c = 0 ∨ c = 1)%Z ∧
  (c = 1%Z ↔ arg_undo a = false ∧ is_dir (fs w) (arg_source a) = false) ∧
  (c = 1%Z →
     fs w' = fs w ∧ stdout w' = stdout w ∧
     stderr w' = (stderr w ++ ["Source must be an existing directory"])%list).
Proof.
  unfold main. cbn zeta. destruct (arg_undo a).
  - unfold mbind, M_bind.
    destruct (undo _ _ w) as [[] w1|e w1|]; [|done|done].
    intros [= <- <-]. split; [by left|]. split; [|done].
    split; [done|]. by intros [? _].
  - unfold main_organize. rewrite bind_ask.
    destruct (is_dir (fs w) (arg_source a)) eqn:Hd.
    + rewrite (is_dir_exists _ _ Hd). cbn [andb negb].
      unfold mbind, M_bind.
      destruct (plan_moves _ _ _ _ _ w) as [ops w1|e w1|]; [|done|done].
      destruct ops as [|op ops].
      * intros [= <- <-]. split; [by left|]. split; [|done].
        split; [done|]. by intros [_ ?].
      * destruct (do_moves _ _ _ _ w1) as [[] w2|e w2|]; [|done|done].
        intros [= <- <-]. split; [by left|]. split; [|done].
        split; [done|]. by intros [_ ?].
    + rewrite andb_false_r. cbn [negb]. intros [= <- <-].
      split; [by right|]. split; done.
Qed.

(** X16: in mode "ext" or "date", when every entry of the source directory
    is a directory or is already at the destination computed for it, the
    organize run prints "Nothing to do." and returns 0: nothing is created,
    moved or logged.  Organizing what is organized is idle. *)
Theorem main_organize_nothing_to_do source target mode dry_run undo_log w :
  is_dir (fs w) source = true →
  mode = "ext" ∨ mode = "date" →
  (∀ p, p ∈ children (fs w) source →
     is_dir (fs w) p = true ∨
     dest_of fromtimestamp target mode p w = Ok p w) →
  main_organize scandir fromtimestamp now source target mode dry_run undo_log w
  = Ok 0%Z (World (fs w) (stdout w ++ ["Nothing to do."]) (stderr w)).
Proof.
  intros Hd Hmode Hidle. unfold main_organize. rewrite bind_ask.
  rewrite Hd, (is_dir_exists _ _ Hd). cbn [andb negb].
  destruct (plan_moves_total scandir fromtimestamp scandir_children
              source target mode w Hd Hmode) as [ops Hops].
  rewrite (bind_Ok _ _ _ _ _ Hops).
  destruct ops as [|[o d] ops]; [done|].
  apply plan_moves_inv in Hops as [_ Hops]; [|done].
  destruct (Hops o d) as (Ho & Hnd & Hne & Hdest); [apply list_elem_of_here|].
  destruct (Hidle o Ho) as [?|Hsame]; congruence.
Qed.

End Main.

(** ** A run that fails on the way *)

Lemma bind_assoc {A B C : Type} (c : M A) (f : A → M B) (g : B → M C) w :
  ((c ≫= f) ≫= g) w = (c ≫= λ a, f a ≫= g) w.
Proof. unfold mbind, M_bind. by destruct (c w). Qed.

Lemma bind_ext {A B : Type} (c : M A) (f g : A → M B) w :
  (∀ a v, f a v = g a v) → (c ≫= f) w = (c ≫= g) w.
Proof. intros H. unfold mbind, M_bind. by destruct (c w). Qed.

(** Executing [ops1 ++ ops2] is executing [ops1], then [ops2] with the
    records and the world that [ops1] left. *)
Lemma do_moves_loop_app dry_run ops1 : ∀ ops2 performed w,
  do_moves_loop dry_run (ops1 ++ ops2) performed w
  = (do_moves_loop dry_run ops1 performed ≫= do_moves_loop dry_run ops2) w.
Proof.
  induction ops1 as [|[src dst] ops1 IH]; intros ops2 performed w; [done|].
  cbn [app do_moves_loop]. rewrite bind_assoc. apply bind_ext. intros [] v.
  destruct dry_run.
  - rewrite bind_assoc. apply bind_ext. intros [] v1. apply IH.
  - rewrite bind_assoc. apply bind_ext. intros dst' v1.
    rewrite bind_assoc. apply bind_ext. intros [] v2.
    rewrite bind_assoc. apply bind_ext. intros [] v3. apply IH.
Qed.

(** X17: when the first operations of a plan are executed and a later one
    raises, [do_moves] raises the same exception in the world the loop has
    reached: the moves made so far stay made, and no log of them is
    written. *)
Theorem do_moves_failure_unlogged now ops1 ops2 (log : path) w performed w1 e w2 :
  do_moves_loop false ops1 [] w = Ok performed w1 →
  do_moves_loop false ops2 performed w1 = Raise e w2 →
  do_moves now (ops1 ++ ops2) false (Some log) w = Raise e w2.
Proof.
  intros H1 H2. unfold do_moves. apply bind_Raise.
  by rewrite do_moves_loop_app, (bind_Ok _ _ _ _ _ H1).
Qed.

(** ** The candidate keeps the extension *)

Lemma rfind_dot_split s : ∀ i,
  rfind_dot s = Some i →
  ∃ pre rest, s = pre +:+ String "." rest ∧ String.length pre = i ∧
              rfind_dot rest = None.
Proof.
  induction s as [|c s IH]; intros i H; [done|]. cbn [rfind_dot] in H.
  destruct (rfind_dot s) as [j|] eqn:Hj.
  - injection H as <-. destruct (IH j eq_refl) as (pre & rest & -> & <- & Hr).
    by exists (String c pre), rest.
  - destruct (Ascii.eqb c ".") eqn:Hc; [|done]. injection H as <-.
    apply Ascii.eqb_eq in Hc as ->. by exists "", s.
Qed.

Lemma rfind_dot_app pre rest :
  rfind_dot rest = None →
  rfind_dot (pre +:+ String "." rest) = Some (String.length pre).
Proof.
  intros Hr. induction pre as [|c pre IH].
  - change ("" +:+ String "." rest) with (String "." rest).
    cbn [rfind_dot]. by rewrite Hr.
  - rewrite string_app_cons. cbn [rfind_dot String.length]. by rewrite IH.
Qed.

Lemma substring_app_r pre t :
  String.substring (String.length pre) (String.length t) (pre +:+ t) = t.
Proof.
  induction pre as [|c pre IH]; [|by rewrite string_app_cons].
  change ("" +:+ t) with t. cbn [String.length].
  induction t as [|c t IHt]; [done|]. cbn. by rewrite IHt.
Qed.

Lemma substring_app_l pre t :
  String.substring 0 (String.length pre) (pre +:+ t) = pre.
Proof.
  induction pre as [|c pre IH].
  - by destruct t.
  - rewrite string_app_cons. cbn. by rewrite IH.
Qed.

(** A name with a suffix is its stem, a dot, and a rest without dots. *)
Lemma suffix_of_name_split nm :
  suffix_of_name nm ≠ "" →
  ∃ rest, suffix_of_name nm = String "." rest ∧ rest ≠ "" ∧
          rfind_dot rest = None ∧
          stem_of_name nm ≠ "" ∧
          nm = stem_of_name nm +:+ String "." rest.
Proof.
  unfold suffix_of_name, stem_of_name.
  destruct (rfind_dot nm) as [i|] eqn:Hi; [|done].
  destruct ((0 <? i)%nat && (i <? String.length nm - 1)%nat) eqn:Hc; [|done].
  intros _. apply andb_true_iff in Hc as [H0%Nat.ltb_lt H1%Nat.ltb_lt].
  apply rfind_dot_split in Hi as (pre & rest & -> & <- & Hr).
  rewrite length_string_app in *. cbn [String.length] in *.
  exists rest.
  replace (String.length pre + S (String.length rest) - String.length pre)%nat
    with (String.length (String "." rest)) by (cbn; lia).
  rewrite substring_app_r, substring_app_l.
  split; [done|]. split; [by intros ->; cbn in H1; lia|].
  split; [done|]. split; [by intros ->; cbn in H0; lia|done].
Qed.

Lemma string_app_assoc s t u : (s +:+ t) +:+ u = s +:+ (t +:+ u).
Proof.
  induction s as [|c s IH]; [done|]. rewrite !string_app_cons. by rewrite IH.
Qed.

(** X18: for a name with a suffix, every candidate "stem (k)suffix" has
    that same suffix, and "stem (k)" for its stem: a file renamed on a
    collision keeps its extension, and with it its bucket. *)
Theorem candidate_keeps_suffix (d : path) nm k :
  suffix_of_name nm ≠ "" →
  let cand := cand_name (stem_of_name nm) (suffix_of_name nm) k in
  suffix_of_name cand = suffix_of_name nm ∧
  stem_of_name cand = stem_of_name nm +:+ " (" +:+ str_nat k +:+ ")" ∧
  ext_of (d </> cand) = ext_of (d </> nm).
Proof.
  intros Hs. cbn zeta.
  destruct (suffix_of_name_split nm Hs) as (rest & Hsuf & Hrest & Hr & _ & _).
  set (pre := stem_of_name nm +:+ " (" +:+ str_nat k +:+ ")").
  assert (cand_name (stem_of_name nm) (suffix_of_name nm) k
          = pre +:+ String "." rest) as ->.
  { unfold cand_name, pre. rewrite Hsuf.
    by rewrite !string_app_assoc. }
  assert (0 < String.length pre)%nat as Hpre.
  { unfold pre. rewrite !length_string_app. cbn [String.length]. lia. }
  assert (0 < String.length rest)%nat as Hlen by (destruct rest; [done|cbn; lia]).
  assert (suffix_of_name (pre +:+ String "." rest) = String "." rest) as Hsc.
  { unfold suffix_of_name. rewrite (rfind_dot_app _ _ Hr).
    rewrite length_string_app. cbn [String.length].
    rewrite (proj2 (Nat.ltb_lt _ _)) by done.
    rewrite (proj2 (Nat.ltb_lt _ _)) by lia. cbn [andb].
    replace (String.length pre + S (String.length rest) - String.length pre)%nat
      with (String.length (String "." rest)) by (cbn; lia).
    apply substring_app_r. }
  split; [by rewrite Hsc, Hsuf|]. split.
  - unfold stem_of_name. rewrite (rfind_dot_app _ _ Hr).
    rewrite length_string_app. cbn [String.length].
    rewrite (proj2 (Nat.ltb_lt _ _)) by done.
    rewrite (proj2 (Nat.ltb_lt _ _)) by lia. cbn [andb].
    apply substring_app_l.
  - unfold ext_of, suffix. cbn [name]. by rewrite Hsc, Hsuf.
Qed.

(** ** More on single steps *)

(** X19: for a record whose first path is a regular file and whose second
    path is free, in a directory that can be made, a non-dry run of [undo]
    makes that directory and moves the file from the first path to the
    second: it repeats the recorded move. *)
Theorem undo_repeats_move (log a d : path) nm w t ta xa m1 :
  node_at (fs w) log = Some (File t (MoveLog [(a, d </> nm)])) →
  node_at (fs w) a = Some (File ta xa) →
  path_exists (fs w) (d </> nm) = false →
  mkdir_p d (fs w) = Some m1 →
  undo log false w
  = Ok tt (World (<[d </> nm := File ta xa]> (delete a m1))
             (stdout w ++
              ["[UNDO] " +:+ path_str a +:+ " -> " +:+ path_str (d </> nm)])
             (stderr w)).
Proof.
  intros Hlog Ha Hfree Hmk. rewrite (undo_reads_log _ _ _ _ _ Hlog).
  cbn [rev app undo_loop parent].
  assert (path_exists m1 (d </> nm) = false) as Hfree1.
  { unfold path_exists, node_at in *.
    rewrite (mkdir_p_longer _ _ _ _ Hmk); [done|]. cbn [length]. lia. }
  assert (node_at m1 a = Some (File ta xa)) as Ha1.
  { unfold node_at in *. destruct a; [done|]. by eapply mkdir_p_keeps. }
  assert (shutil_move a (d </> nm) m1
          = Some (<[d </> nm := File ta xa]> (delete a m1))) as Hmv.
  { apply shutil_move_file_free; [done..|]. by eapply mkdir_p_makes_dir. }
  assert (∀ (k : unit → M unit) (c : M unit) v,
    c w = Ok tt v → (c ≫= k) w = k tt v) as Hbind
    by (intros k c v Hc; exact (bind_Ok c k w tt v Hc)).
  erewrite Hbind; [reflexivity|].
  rewrite (bind_syscall_Some _ _ _ _ Hmk).
  rewrite bind_ask. cbn [fs]. unfold path_exists. rewrite Ha1.
  by rewrite (bind_syscall_Some (shutil_move a (d </> nm)) _
                (World m1 (stdout w) (stderr w)) _ Hmv).
Qed.

Lemma suffix_of_cons (q p : path) a :
  q `suffix_of` p </> a → q = p </> a ∨ q `suffix_of` p.
Proof.
  intros [[|b k] H]; [by left|]. right. injection H as _ ->. by exists k.
Qed.

(** In a directory tree, what lies above an existing path is a directory. *)
Lemma tree_ancestors m p : ∀ q,
  tree m → path_exists m p = true → q `suffix_of` p → q ≠ p →
  is_dir m q = true.
Proof.
  induction p as [|a p IH]; intros q Ht He Hq Hne.
  - apply suffix_nil_inv in Hq. congruence.
  - apply suffix_of_cons in Hq as [->|Hq]; [done|].
    pose proof (tree_parent_is_dir _ _ _ Ht He) as Hd.
    destruct (decide (q = p)) as [->|Hqp]; [done|].
    apply IH; [done| |done|done]. by apply is_dir_exists.
Qed.

Lemma mkdir_p_blocked m (q : path) t x : ∀ p,
  tree m → q `suffix_of` p → node_at m q = Some (File t x) →
  mkdir_p p m = None.
Proof.
  induction p as [|a p IH]; intros Ht Hq Hf.
  - apply suffix_nil_inv in Hq as ->. done.
  - cbn [mkdir_p]. apply suffix_of_cons in Hq as [->|Hq].
    + unfold node_at in Hf. by rewrite Hf.
    + destruct (m !! (p </> a)) as [n|] eqn:E; [|by rewrite IH].
      assert (is_dir m q = true) as Hd.
      { apply (tree_ancestors m (p </> a)); [done| |by apply suffix_cons_r|].
        - unfold path_exists, node_at. by rewrite E.
        - intros ->. apply suffix_length in Hq. cbn [length] in Hq. lia. }
      unfold is_dir in Hd. by rewrite Hf in Hd.
Qed.

(** X20: in a directory tree, when the directory an operation's
    destination is to lie in, or a directory above it, is a regular file,
    [do_moves] raises [OSError] at that operation, in a dry run too, before
    it prints or moves anything for it. *)
Theorem do_moves_blocked_directory dry_run (src dst q : path) ops performed w t x :
  tree (fs w) →
  q `suffix_of` parent dst →
  node_at (fs w) q = Some (File t x) →
  do_moves_loop dry_run ((src, dst) :: ops) performed w = Raise OSError w.
Proof.
  intros Ht Hq Hf. cbn [do_moves_loop]. apply bind_syscall_None.
  by eapply mkdir_p_blocked.
Qed.

(** ** The further properties at sample inputs *)

(** [plan_moves_complete] on /s, by extension. *)
Lemma plan_moves_complete_witness :
  (∀ m d, children m d ≡ₚ children m d)
  ∧ plan_moves children date src src "ext" (world_of three_files)
    = Ok three_plan (world_of three_files)
  ∧ ∀ o d, (o, d) ∈ three_plan ↔
      o ∈ children three_files src ∧ is_dir three_files o = false ∧ o ≠ d ∧
      dest_of date src "ext" o (world_of three_files)
      = Ok d (world_of three_files).
Proof.
  assert (plan_moves children date src src "ext" (world_of three_files)
          = Ok three_plan (world_of three_files)) as Hp by by vm_compute.
  split; [exact children_listing|]. split; [exact Hp|].
  exact (plan_moves_complete children date children_listing src src "ext"
           (world_of three_files) three_plan (world_of three_files) Hp).
Defined.


(** [plan_moves_invalid_mode] on /s, with the mode "size". *)
Lemma plan_moves_invalid_mode_witness :
  is_dir three_files src = true
  ∧ "size" ≠ "ext" ∧ "size" ≠ "date"
  ∧ plan_moves children date src src "size" (world_of three_files)
    = if decide (Exists (λ p, is_dir three_files p = false)
                   (children three_files src))
      then Raise ValueError (world_of three_files)
      else Ok [] (world_of three_files).
Proof.
  assert (is_dir three_files src = true) as Hd by by vm_compute.
  assert ("size" ≠ "ext") as H1 by done.
  assert ("size" ≠ "date") as H2 by done.
  split; [exact Hd|]. split; [exact H1|]. split; [exact H2|].
  exact (plan_moves_invalid_mode children date src src "size"
           (world_of three_files) Hd H1 H2).
Defined.


(** [dest_of_date_layout] on /s/c, last modified in May 2024. *)
Lemma dest_of_date_layout_witness :
  st_mtime three_files (src </> "c") = Some 30%Z
  ∧ date 30%Z = (2024, 5)%nat
  ∧ (String.length (str_nat 2024) ≤ 4)%nat
  ∧ (String.length (str_nat 5) ≤ 2)%nat
  ∧ ∃ yyyy mm,
      dest_of date src "date" (src </> "c") (world_of three_files)
      = Ok (src </> yyyy </> mm </> "c") (world_of three_files)
      ∧ String.length yyyy = 4%nat ∧ String.length mm = 2%nat
      ∧ Nat.of_uint <$> NilEmpty.uint_of_string yyyy = Some 2024%nat
      ∧ Nat.of_uint <$> NilEmpty.uint_of_string mm = Some 5%nat.
Proof.
  assert (st_mtime three_files (src </> "c") = Some 30%Z) as Ht by by vm_compute.
  assert (date 30%Z = (2024, 5)%nat) as Hf by reflexivity.
  assert (String.length (str_nat 2024) ≤ 4)%nat as Hy by (vm_compute; lia).
  assert (String.length (str_nat 5) ≤ 2)%nat as Hm by (vm_compute; lia).
  split; [exact Ht|]. split; [exact Hf|]. split; [exact Hy|]. split; [exact Hm|].
  exact (dest_of_date_layout date src (src </> "c") (world_of three_files)
           30%Z 2024%nat 5%nat Ht Hf Hy Hm).
Defined.

(** [do_moves_keeps_others] on the report.txt that is already in /t/txt
    when /s/report.txt is moved there. *)
Lemma do_moves_keeps_others_witness :
  taken !! (tgt </> "txt" </> "report.txt") = Some (File 20 (Opaque 2))
  ∧ (∀ s, s ∈ [(src </> "report.txt", tgt </> "txt" </> "report.txt")].*1 →
       under s (tgt </> "txt" </> "report.txt") = false)
  ∧ Some log ≠ Some (tgt </> "txt" </> "report.txt")
  ∧ ∃ w',
      stops_in
        (do_moves clock [(src </> "report.txt", tgt </> "txt" </> "report.txt")]
           false (Some log) (world_of taken)) w'
      ∧ fs w' !! (tgt </> "txt" </> "report.txt") = Some (File 20 (Opaque 2)).
Proof.
  assert (taken !! (tgt </> "txt" </> "report.txt")
          = Some (File 20 (Opaque 2))) as Hq by by vm_compute.
  assert (∀ s,
    s ∈ [(src </> "report.txt", tgt </> "txt" </> "report.txt")].*1 →
    under s (tgt </> "txt" </> "report.txt") = false) as Hs.
  { intros s Hin. apply list_elem_of_singleton in Hin as ->. by vm_compute. }
  assert (Some log ≠ Some (tgt </> "txt" </> "report.txt")) as Hl by done.
  split; [exact Hq|]. split; [exact Hs|]. split; [exact Hl|].
  exact (do_moves_keeps_others clock
           [(src </> "report.txt", tgt </> "txt" </> "report.txt")]
           false (Some log) (world_of taken) _ _ Hq Hs Hl).
Defined.

(** [do_moves_writes_log] on the two reports. *)
Lemma do_moves_writes_log_witness :
  do_moves clock two_plan false (Some log) (world_of two_reports)
  = Ok tt (World two_done
             ["[MOVE] /s/report.txt -> /t/txt/report.txt";
              "[MOVE] /s/old/report.txt -> /t/txt/report (1).txt";
              "[LOG] Undo log written to /undo_moves.json"] [])
  ∧ two_plan ≠ []
  ∧ ∃ performed,
      two_done !! log = Some (File clock (MoveLog performed))
      ∧ performed.*1 = two_plan.*1
      ∧ Forall2 (λ r op, settled op.2 r.2) performed two_plan
      ∧ last ["[MOVE] /s/report.txt -> /t/txt/report.txt";
              "[MOVE] /s/old/report.txt -> /t/txt/report (1).txt";
              "[LOG] Undo log written to /undo_moves.json"]
        = Some ("[LOG] Undo log written to " +:+ path_str log).
Proof.
  assert (do_moves clock two_plan false (Some log) (world_of two_reports)
    = Ok tt (World two_done
               ["[MOVE] /s/report.txt -> /t/txt/report.txt";
                "[MOVE] /s/old/report.txt -> /t/txt/report (1).txt";
                "[LOG] Undo log written to /undo_moves.json"] []))
    as Hrun by by vm_compute.
  assert (two_plan ≠ []) as Hne by done.
  split; [exact Hrun|]. split; [exact Hne|].
  exact (do_moves_writes_log clock two_plan log (world_of two_reports) _
           Hrun Hne).
Defined.

(** [do_moves_free_destination] on /s/a.txt, bound for /s/txt. *)
Lemma do_moves_free_destination_witness :
  node_at one_file (src </> "a.txt") = Some (File 10 (Opaque 1))
  ∧ path_exists one_file (src </> "txt" </> "a.txt") = false
  ∧ mkdir_p (src </> "txt") one_file = Some (<[src </> "txt" := Dir]> one_file)
  ∧ do_moves_loop false [(src </> "a.txt", src </> "txt" </> "a.txt")] []
      (world_of one_file)
    = do_moves_loop false [] ([] ++ [(src </> "a.txt", src </> "txt" </> "a.txt")])
        (World
           (<[src </> "txt" </> "a.txt" := File 10 (Opaque 1)]>
              (delete (src </> "a.txt") (<[src </> "txt" := Dir]> one_file)))
           ([] ++
            ["[MOVE] " +:+ path_str (src </> "a.txt") +:+ " -> " +:+
             path_str (src </> "txt" </> "a.txt")])
           []).
Proof.
  assert (node_at one_file (src </> "a.txt") = Some (File 10 (Opaque 1)))
    as Hs by by vm_compute.
  assert (path_exists one_file (src </> "txt" </> "a.txt") = false)
    as Hf by by vm_compute.
  assert (mkdir_p (src </> "txt") one_file
          = Some (<[src </> "txt" := Dir]> one_file)) as Hm by by vm_compute.
  split; [exact Hs|]. split; [exact Hf|]. split; [exact Hm|].
  exact (do_moves_free_destination (src </> "a.txt") (src </> "txt") "a.txt"
           [] [] (world_of one_file) _ _ _ Hs Hf Hm).
Defined.

(** [undo_dry_run] on the log of a.txt's move. *)
Lemma undo_dry_run_witness :
  node_at organized log
  = Some (File clock (MoveLog [(src </> "a.txt", src </> "txt" </> "a.txt")]))
  ∧ undo log true (world_of organized)
    = Ok tt (World organized
               ([] ++ (dry_undo_line <$>
                         rev [(src </> "a.txt", src </> "txt" </> "a.txt")]))
               []).
Proof.
  assert (node_at organized log
    = Some (File clock (MoveLog [(src </> "a.txt", src </> "txt" </> "a.txt")])))
    as Hl by by vm_compute.
  split; [exact Hl|].
  exact (undo_dry_run log (world_of organized) _ _ Hl).
Defined.

(** [undo_origins_absent] after a.txt and b.txt were organized. *)
Lemma undo_origins_absent_witness :
  node_at one_deleted log
  = Some (File clock
            (MoveLog [(src </> "a.txt", src </> "txt" </> "a.txt");
                      (src </> "b.txt", src </> "txt" </> "b.txt")]))
  ∧ (∀ a b,
       (a, b) ∈ [(src </> "a.txt", src </> "txt" </> "a.txt");
                 (src </> "b.txt", src </> "txt" </> "b.txt")] →
       path_exists one_deleted a = false ∧ is_dir one_deleted (parent b) = true)
  ∧ undo log false (world_of one_deleted)
    = Ok tt (World one_deleted
               ([] ++ (skip_line <$>
                         rev [(src </> "a.txt", src </> "txt" </> "a.txt");
                              (src </> "b.txt", src </> "txt" </> "b.txt")]))
               []).
Proof.
  assert (node_at one_deleted log
    = Some (File clock
              (MoveLog [(src </> "a.txt", src </> "txt" </> "a.txt");
                        (src </> "b.txt", src </> "txt" </> "b.txt")])))
    as Hl by by vm_compute.
  assert (∀ a b,
    (a, b) ∈ [(src </> "a.txt", src </> "txt" </> "a.txt");
              (src </> "b.txt", src </> "txt" </> "b.txt")] →
    path_exists one_deleted a = false ∧ is_dir one_deleted (parent b) = true)
    as Ha.
  { intros a b [[= -> ->]|[[= -> ->]|[]%elem_of_nil]%elem_of_cons]%elem_of_cons;
      split; by vm_compute. }
  split; [exact Hl|]. split; [exact Ha|].
  exact (undo_origins_absent log (world_of one_deleted) _ _ Hl Ha).
Defined.

(** [undo_overwrites] where a new a.txt lies at the origin. *)
Lemma undo_overwrites_witness :
  tree both_present
  ∧ node_at both_present log
    = Some (File clock (MoveLog [(src </> "a.txt", src </> "txt" </> "a.txt")]))
  ∧ node_at both_present (src </> "a.txt") = Some (File 40 (Opaque 4))
  ∧ node_at both_present (src </> "txt" </> "a.txt") = Some (File 10 (Opaque 1))
  ∧ undo log false (world_of both_present)
    = Ok tt (World
               (<[src </> "txt" </> "a.txt" := File 40 (Opaque 4)]>
                  (delete (src </> "a.txt") both_present))
               ([] ++
                ["[UNDO] " +:+ path_str (src </> "a.txt") +:+ " -> " +:+
                 path_str (src </> "txt" </> "a.txt")])
               []).
Proof.
  assert (tree both_present) as Ht
    by (apply (bool_decide_unpack _); by vm_compute).
  assert (node_at both_present log
    = Some (File clock (MoveLog [(src </> "a.txt", src </> "txt" </> "a.txt")])))
    as Hl by by vm_compute.
  assert (node_at both_present (src </> "a.txt") = Some (File 40 (Opaque 4)))
    as Ha by by vm_compute.
  assert (node_at both_present (src </> "txt" </> "a.txt")
          = Some (File 10 (Opaque 1))) as Hb by by vm_compute.
  split; [exact Ht|]. split; [exact Hl|]. split; [exact Ha|]. split; [exact Hb|].
  exact (undo_overwrites log (src </> "a.txt") (src </> "txt" </> "a.txt")
           (world_of both_present) _ _ _ _ _ Ht Hl Ha Hb).
Defined.

(** [main_exit_code] on a source that does not exist. *)
Lemma main_exit_code_witness :
  main children date clock no_source (world_of one_file)
    = Ok 1%Z (World one_file [] ["Source must be an existing directory"])
  ∧ (1 = 0 ∨ 1 = 1)%Z
  ∧ (1%Z = 1%Z ↔
       arg_undo no_source = false ∧ is_dir one_file (arg_source no_source) = false)
  ∧ (1%Z = 1%Z →
       one_file = one_file ∧ [] = @nil string ∧
       ["Source must be an existing directory"]
       = ([] ++ ["Source must be an existing directory"])%list).
Proof.
  assert (main children date clock no_source (world_of one_file)
    = Ok 1%Z (World one_file [] ["Source must be an existing directory"]))
    as Hr by by vm_compute.
  split; [exact Hr|].
  exact (main_exit_code children date clock no_source (world_of one_file)
           1%Z _ Hr).
Defined.

(** [main_organize_nothing_to_do] on /t/txt, organized into /t. *)
Lemma main_organize_nothing_to_do_witness :
  (∀ m d, children m d ≡ₚ children m d)
  ∧ is_dir in_place (tgt </> "txt") = true
  ∧ ("ext" = "ext" ∨ "ext" = "date")
  ∧ (∀ p, p ∈ children in_place (tgt </> "txt") →
       is_dir in_place p = true ∨
       dest_of date tgt "ext" p (world_of in_place) = Ok p (world_of in_place))
  ∧ main_organize children date clock (tgt </> "txt") tgt "ext" false log
      (world_of in_place)
    = Ok 0%Z (World in_place ([] ++ ["Nothing to do."]) []).
Proof.
  assert (is_dir in_place (tgt </> "txt") = true) as Hd by by vm_compute.
  assert (∀ p, p ∈ children in_place (tgt </> "txt") →
    is_dir in_place p = true ∨
    dest_of date tgt "ext" p (world_of in_place) = Ok p (world_of in_place))
    as Hi.
  { intros p Hp.
    replace (children in_place (tgt </> "txt"))
      with [tgt </> "txt" </> "a.txt"; tgt </> "txt" </> "sub"] in Hp
      by by vm_compute.
    apply elem_of_cons in Hp as [->|Hp]; [right; by vm_compute|].
    apply list_elem_of_singleton in Hp as ->. left. by vm_compute. }
  split; [exact children_listing|]. split; [exact Hd|].
  split; [left; reflexivity|]. split; [exact Hi|].
  exact (main_organize_nothing_to_do children date clock children_listing
           (tgt </> "txt") tgt "ext" false log (world_of in_place)
           Hd (or_introl eq_refl) Hi).
Defined.

(** [do_moves_failure_unlogged]: a.txt is moved, then a source is missing. *)
Lemma do_moves_failure_unlogged_witness :
  do_moves_loop false [(src </> "a.txt", src </> "txt" </> "a.txt")] []
    (world_of one_file)
  = Ok [(src </> "a.txt", src </> "txt" </> "a.txt")]
      (World
         (<[src </> "txt" </> "a.txt" := File 10 (Opaque 1)]>
            (delete (src </> "a.txt") (<[src </> "txt" := Dir]> one_file)))
         ["[MOVE] /s/a.txt -> /s/txt/a.txt"] [])
  ∧ do_moves_loop false [(src </> "gone", src </> "no_ext" </> "gone")]
      [(src </> "a.txt", src </> "txt" </> "a.txt")]
      (World
         (<[src </> "txt" </> "a.txt" := File 10 (Opaque 1)]>
            (delete (src </> "a.txt") (<[src </> "txt" := Dir]> one_file)))
         ["[MOVE] /s/a.txt -> /s/txt/a.txt"] [])
    = Raise OSError
        (World
           (<[src </> "no_ext" := Dir]>
              (<[src </> "txt" </> "a.txt" := File 10 (Opaque 1)]>
                 (delete (src </> "a.txt") (<[src </> "txt" := Dir]> one_file))))
           ["[MOVE] /s/a.txt -> /s/txt/a.txt"] [])
  ∧ do_moves clock
      ([(src </> "a.txt", src </> "txt" </> "a.txt")] ++
       [(src </> "gone", src </> "no_ext" </> "gone")])
      false (Some log) (world_of one_file)
    = Raise OSError
        (World
           (<[src </> "no_ext" := Dir]>
              (<[src </> "txt" </> "a.txt" := File 10 (Opaque 1)]>
                 (delete (src </> "a.txt") (<[src </> "txt" := Dir]> one_file))))
           ["[MOVE] /s/a.txt -> /s/txt/a.txt"] []).
Proof.
  set (w1 := World
         (<[src </> "txt" </> "a.txt" := File 10 (Opaque 1)]>
            (delete (src </> "a.txt") (<[src </> "txt" := Dir]> one_file)))
         ["[MOVE] /s/a.txt -> /s/txt/a.txt"] []).
  set (w2 := World
         (<[src </> "no_ext" := Dir]>
            (<[src </> "txt" </> "a.txt" := File 10 (Opaque 1)]>
               (delete (src </> "a.txt") (<[src </> "txt" := Dir]> one_file))))
         ["[MOVE] /s/a.txt -> /s/txt/a.txt"] []).
  assert (do_moves_loop false [(src </> "a.txt", src </> "txt" </> "a.txt")] []
            (world_of one_file)
          = Ok [(src </> "a.txt", src </> "txt" </> "a.txt")] w1) as H1
    by by vm_compute.
  assert (do_moves_loop false [(src </> "gone", src </> "no_ext" </> "gone")]
            [(src </> "a.txt", src </> "txt" </> "a.txt")] w1
          = Raise OSError w2) as H2 by by vm_compute.
  split; [exact H1|]. split; [exact H2|].
  exact (do_moves_failure_unlogged clock _ _ log (world_of one_file) _ w1
           OSError w2 H1 H2).
Defined.

(** [candidate_keeps_suffix] on report.txt and the counter 1. *)
Lemma candidate_keeps_suffix_witness :
  suffix_of_name "report.txt" ≠ ""
  ∧ suffix_of_name
      (cand_name (stem_of_name "report.txt") (suffix_of_name "report.txt") 1)
    = suffix_of_name "report.txt"
  ∧ stem_of_name
      (cand_name (stem_of_name "report.txt") (suffix_of_name "report.txt") 1)
    = stem_of_name "report.txt" +:+ " (" +:+ str_nat 1 +:+ ")"
  ∧ ext_of (tgt </>
            cand_name (stem_of_name "report.txt") (suffix_of_name "report.txt") 1)
    = ext_of (tgt </> "report.txt").
Proof.
  assert (suffix_of_name "report.txt" ≠ "") as H by by vm_compute.
  split; [exact H|].
  exact (candidate_keeps_suffix tgt "report.txt" 1 H).
Defined.

(** [undo_repeats_move] where a.txt is back in /s. *)
Lemma undo_repeats_move_witness :
  node_at refilled log
  = Some (File clock (MoveLog [(src </> "a.txt", src </> "txt" </> "a.txt")]))
  ∧ node_at refilled (src </> "a.txt") = Some (File 40 (Opaque 4))
  ∧ path_exists refilled (src </> "txt" </> "a.txt") = false
  ∧ mkdir_p (src </> "txt") refilled = Some (<[src </> "txt" := Dir]> refilled)
  ∧ undo log false (world_of refilled)
    = Ok tt (World
               (<[src </> "txt" </> "a.txt" := File 40 (Opaque 4)]>
                  (delete (src </> "a.txt") (<[src </> "txt" := Dir]> refilled)))
               ([] ++
                ["[UNDO] " +:+ path_str (src </> "a.txt") +:+ " -> " +:+
                 path_str (src </> "txt" </> "a.txt")])
               []).
Proof.
  assert (node_at refilled log
    = Some (File clock (MoveLog [(src </> "a.txt", src </> "txt" </> "a.txt")])))
    as Hl by by vm_compute.
  assert (node_at refilled (src </> "a.txt") = Some (File 40 (Opaque 4)))
    as Ha by by vm_compute.
  assert (path_exists refilled (src </> "txt" </> "a.txt") = false)
    as Hf by by vm_compute.
  assert (mkdir_p (src </> "txt") refilled
          = Some (<[src </> "txt" := Dir]> refilled)) as Hm by by vm_compute.
  split; [exact Hl|]. split; [exact Ha|]. split; [exact Hf|]. split; [exact Hm|].
  exact (undo_repeats_move log (src </> "a.txt") (src </> "txt") "a.txt"
           (world_of refilled) _ _ _ _ Hl Ha Hf Hm).
Defined.

(** [do_moves_blocked_directory]: /s/c is a regular file, and a file is
    to go two levels under it. *)
Lemma do_moves_blocked_directory_witness :
  tree three_files
  ∧ (src </> "c") `suffix_of` parent (src </> "c" </> "txt" </> "a.txt")
  ∧ node_at three_files (src </> "c") = Some (File 30 (Opaque 3))
  ∧ do_moves_loop true [(src </> "a.txt", src </> "c" </> "txt" </> "a.txt")] []
      (world_of three_files)
    = Raise OSError (world_of three_files).
Proof.
  assert (tree three_files) as Ht
    by (apply (bool_decide_unpack _); by vm_compute).
  assert ((src </> "c") `suffix_of` parent (src </> "c" </> "txt" </> "a.txt"))
    as Hq by (by exists ["txt"]).
  assert (node_at three_files (src </> "c") = Some (File 30 (Opaque 3)))
    as Hc by by vm_compute.
  split; [exact Ht|]. split; [exact Hq|]. split; [exact Hc|].
  exact (do_moves_blocked_directory true (src </> "a.txt")
           (src </> "c" </> "txt" </> "a.txt") (src </> "c")
           [] [] (world_of three_files) _ _ Ht Hq Hc).
Defined.
